(** * The accelio work queue (src/usr/xio/xio_workqueue.c)

    A shallow embedding of the deferred-execution engine of an accelio
    context: one timerfd standing for the earliest of many deadlines, one
    non-blocking pipe carrying pointer-sized tokens, and the two status bits
    of the queue.  Machine integers are [Z]; the kernel objects behind the
    file descriptors (timer, pipe) and the caller-owned work handles are
    explicit state; the answers of system calls that the program cannot
    predict are arguments of the functions that make the calls. *)

From Stdlib Require Import ZArith List Bool Lia String.
From Equations Require Import Equations.
From stdpp Require Import base option gmap.

Local Open Scope Z_scope.

(** ** Machine integers *)

Definition to_uint64 (z : Z) : Z := z mod 2 ^ 64.

Definition to_int64 (z : Z) : Z := (z + 2 ^ 63) mod 2 ^ 64 - 2 ^ 63.

(** [flags |= mask] and [flags &= ~mask] and the test [flags & mask]. *)
Definition set_bits (mask flags : Z) : Z := Z.lor flags mask.

Definition clr_bits (mask flags : Z) : Z := Z.land flags (Z.lnot mask).

Definition test_bits (mask flags : Z) : bool := negb (Z.land flags mask =? 0).

(** ** Declarations of the file *)

(** enum xio_workqueue_flags *)
Definition XIO_WORKQUEUE_IN_POLL : Z := Z.shiftl 1 0.

Definition XIO_WORKQUEUE_TIMER_ARMED : Z := Z.shiftl 1 1.

Definition NSEC_PER_SEC : Z := 1000000000.

(** Modelled from the spec: [XIO_NS_IN_SEC] is declared in xio_os.h, which
    is not part of the file; it is the number of nanoseconds in a second,
    the value the file itself gives to [NSEC_PER_SEC] and the bound the
    comment of [set_normalized_timespec] names. *)
Definition XIO_NS_IN_SEC : Z := NSEC_PER_SEC.

(** Modelled from the spec: the work-handle declarations live in
    xio_workqueue.h, which is not part of the file.  A work item is
    {callback, opaque argument, state}, the state Idle/Pending being one bit
    of the handle's [flags] word. *)
Definition XIO_WORK_PENDING : Z := Z.shiftl 1 0.

Record xio_work_handle : Type := mk_work {
  function : Z;      (* the callback, a code address *)
  data : Z;          (* the opaque argument *)
  work_flags : Z     (* volatile uint32_t flags *)
}.

(** Modelled from the spec: [enum timers_list_rc] is declared in
    xio_timers_list.h, which is not part of the file: the result of a
    registry operation, of which the file only ever tests for
    [TIMERS_LIST_RC_ERROR]. *)
Inductive timers_list_rc : Type :=
  | TIMERS_LIST_RC_OK
  | TIMERS_LIST_RC_EMPTY
  | TIMERS_LIST_RC_NOT_EMPTY
  | TIMERS_LIST_RC_ERROR.

Definition is_rc_error (rc : timers_list_rc) : bool :=
  match rc with TIMERS_LIST_RC_ERROR => true | _ => false end.

(** Modelled from the spec: the deadline registry, [struct xio_timers_list]
    of xio_timers_list.h, is an external collaborator and not part of the
    file.  The work queue is written against its interface and is embedded
    here over any implementation [R] of it.  An entry is named by the address
    of the delayed work handle that embeds it. *)
Class TimersList (R : Type) : Type := {
  xio_timers_list_init : R;
  xio_timers_list_is_empty : R -> bool;
  (* int64_t nanoseconds to the first expiry *)
  xio_timerlist_ns_duration_to_expire : R -> Z;
  (* (list, ns_duration, entry) *)
  xio_timers_list_add_duration : R -> Z -> Z -> timers_list_rc * R;
  (* (list, entry) *)
  xio_timers_list_del : R -> Z -> timers_list_rc * R;
  (* entries that are due now, first to expire first *)
  xio_timers_list_due : R -> list Z
}.

Record timespec : Type := mk_timespec { tv_sec : Z; tv_nsec : Z }.

Record itimerspec : Type := mk_itimerspec {
  it_interval : timespec;
  it_value : timespec
}.

Definition zero_timespec : timespec := mk_timespec 0 0.

Definition zero_itimerspec : itimerspec :=
  mk_itimerspec zero_timespec zero_timespec.

Record xio_workqueue (R : Type) : Type := mk_workqueue {
  ctx : Z;
  timers_list : R;
  timer_fd : Z;
  pipe_fd : Z * Z;
  flags : Z          (* volatile uint32_t flags *)
}.

Arguments mk_workqueue {R} _ _ _ _ _.
Arguments ctx {R} _.
Arguments timers_list {R} _.
Arguments timer_fd {R} _.
Arguments pipe_fd {R} _.
Arguments flags {R} _.

(** ** The kernel objects and the memory the queue acts on *)

(** The one-shot timer behind [timer_fd]: a setting with a zero [it_value]
    disarms it, any other arms it until it fires. *)
Record timerfd : Type := mk_timerfd {
  tfd_setting : itimerspec;   (* the setting last programmed *)
  tfd_fired : bool;           (* that setting has fired since *)
  tfd_expirations : Z         (* expirations not yet read *)
}.

Record machine (R : Type) : Type := mk_machine {
  work_queue : xio_workqueue R;
  timer : timerfd;                 (* kernel state of timer_fd *)
  pipe : list Z;                   (* bytes buffered in the pipe *)
  mem : gmap Z xio_work_handle;    (* caller-owned handles, by address *)
  errlog : list string             (* what ERROR_LOG printed, latest first *)
}.

Arguments mk_machine {R} _ _ _ _ _.
Arguments work_queue {R} _.
Arguments timer {R} _.
Arguments pipe {R} _.
Arguments mem {R} _.
Arguments errlog {R} _.

Definition with_queue {R} (q : xio_workqueue R) (m : machine R) : machine R :=
  mk_machine q (timer m) (pipe m) (mem m) (errlog m).

Definition with_flags {R} (f : Z) (m : machine R) : machine R :=
  let q := work_queue m in
  with_queue (mk_workqueue (ctx q) (timers_list q) (timer_fd q) (pipe_fd q) f) m.

Definition with_timers_list {R} (tl : R) (m : machine R) : machine R :=
  let q := work_queue m in
  with_queue (mk_workqueue (ctx q) tl (timer_fd q) (pipe_fd q) (flags q)) m.

Definition with_timer {R} (t : timerfd) (m : machine R) : machine R :=
  mk_machine (work_queue m) t (pipe m) (mem m) (errlog m).

Definition with_pipe {R} (p : list Z) (m : machine R) : machine R :=
  mk_machine (work_queue m) (timer m) p (mem m) (errlog m).

Definition with_mem {R} (h : gmap Z xio_work_handle) (m : machine R)
  : machine R :=
  mk_machine (work_queue m) (timer m) (pipe m) h (errlog m).

Definition ERROR_LOG {R} (msg : string) (m : machine R) : machine R :=
  mk_machine (work_queue m) (timer m) (pipe m) (mem m) (msg :: errlog m).

(** [timerfd_settime(fd, 0, new_t, NULL)]: the kernel answers [ret]; on
    success the timer holds the new relative setting and its expiration
    counter starts afresh, on failure the timer is untouched. *)
Definition timerfd_settime {R} (ret : Z) (new_t : itimerspec) (m : machine R)
  : machine R :=
  if ret <? 0 then m else with_timer (mk_timerfd new_t false 0) m.

Definition timespec_is_zero (ts : timespec) : bool :=
  (tv_sec ts =? 0) && (tv_nsec ts =? 0).

(** The timer holds a non-zero programmed expiration that has neither fired
    nor been disarmed. *)
Definition timer_is_set (t : timerfd) : bool :=
  negb (timespec_is_zero (it_value (tfd_setting t))) && negb (tfd_fired t).

(** ** set_normalized_timespec *)

Equations? carry_seconds (sec nsec : Z) : Z * Z
  by wf (Z.to_nat (nsec / XIO_NS_IN_SEC)) lt :=
  carry_seconds sec nsec with Z_lt_ge_dec nsec XIO_NS_IN_SEC := {
    | left _ => (sec, nsec)
    | right _ => carry_seconds (sec + 1) (nsec - XIO_NS_IN_SEC) }.
Proof.
  unfold XIO_NS_IN_SEC, NSEC_PER_SEC in *.
  replace (nsec - 1000000000) with (nsec + (-1) * 1000000000) by lia.
  rewrite Z.div_add by lia.
  assert (1 <= nsec / 1000000000) by (apply Z.div_le_lower_bound; lia).
  lia.
Qed.

Equations? borrow_seconds (sec nsec : Z) : Z * Z
  by wf (Z.to_nat (- (nsec / XIO_NS_IN_SEC))) lt :=
  borrow_seconds sec nsec with Z_lt_ge_dec nsec 0 := {
    | left _ => borrow_seconds (sec - 1) (nsec + XIO_NS_IN_SEC)
    | right _ => (sec, nsec) }.
Proof.
  unfold XIO_NS_IN_SEC, NSEC_PER_SEC in *.
  replace (nsec + 1000000000) with (nsec + 1 * 1000000000) by lia.
  rewrite Z.div_add by lia.
  assert (nsec / 1000000000 < 0) by (apply Z.div_lt_upper_bound; lia).
  lia.
Qed.

(** The two [while] loops of the function, then the two stores. *)
Definition set_normalized_timespec (sec nsec : Z) : timespec :=
  let '(sec1, nsec1) := carry_seconds sec nsec in
  let '(sec2, nsec2) := borrow_seconds sec1 nsec1 in
  mk_timespec sec2 nsec2.

(** ** xio_workqueue_rearm and xio_workqueue_disarm *)

(** [settime_ret] is what [timerfd_settime] returns if it is called. *)
Definition xio_workqueue_rearm {R} `{TimersList R}
    (settime_ret : Z) (m : machine R) : Z * machine R :=
  let q := work_queue m in
  if test_bits XIO_WORKQUEUE_IN_POLL (flags q) then (0, m)
  else if xio_timers_list_is_empty (timers_list q) then (0, m)
  else
    let ns_to_expire := xio_timerlist_ns_duration_to_expire (timers_list q) in
    if ns_to_expire =? -1 then (0, m)
    else
      let new_t :=
        if ns_to_expire <? 1
        then mk_itimerspec zero_timespec (mk_timespec 0 1)
        else mk_itimerspec zero_timespec
                           (set_normalized_timespec 0 ns_to_expire) in
      let m1 := timerfd_settime settime_ret new_t m in
      if settime_ret <? 0
      then (-1, ERROR_LOG "timerfd_settime failed" m1)
      else (0, with_flags (set_bits XIO_WORKQUEUE_TIMER_ARMED (flags q)) m1).

Definition xio_workqueue_disarm {R}
    (settime_ret : Z) (m : machine R) : machine R :=
  let q := work_queue m in
  if negb (test_bits XIO_WORKQUEUE_TIMER_ARMED (flags q)) then m
  else
    let m1 := timerfd_settime settime_ret zero_itimerspec m in
    let m2 := if settime_ret <? 0
              then ERROR_LOG "timerfd_settime failed" m1 else m1 in
    with_flags (clr_bits XIO_WORKQUEUE_TIMER_ARMED (flags (work_queue m2))) m2.

(** The delay the spec has rearm program for [r] nanoseconds to the next
    expiry: the least positive one when the deadline has passed, else [r]
    itself in seconds and nanoseconds. *)
Definition rearm_delay (r : Z) : timespec :=
  if r <? 1 then mk_timespec 0 1
  else mk_timespec (r / 1000000000) (r mod 1000000000).

(** ** Work handles in caller-owned memory *)

Definition zero_work : xio_work_handle := mk_work 0 0 0.

(** Handles are storage their callers own; an address nothing was stored at
    yet reads as zeroed storage. *)
Definition load_work (h : gmap Z xio_work_handle) (a : Z) : xio_work_handle :=
  default zero_work (h !! a).

Definition store_work {R} (a : Z) (w : xio_work_handle) (m : machine R)
  : machine R :=
  with_mem (<[a := w]> (mem m)) m.

Definition work_pending {R} (m : machine R) (a : Z) : bool :=
  test_bits XIO_WORK_PENDING (work_flags (load_work (mem m) a)).

(** ** The pipe: eight-byte tokens *)

Fixpoint bytes_of_word (n : nat) (w : Z) : list Z :=
  match n with
  | O => nil
  | S k => (w mod 256) :: bytes_of_word k (w / 256)
  end.

Fixpoint word_of_bytes (l : list Z) : Z :=
  match l with
  | nil => 0
  | b :: t => b + 256 * word_of_bytes t
  end.

(** Modelled from the spec: [uint64_from_ptr] and [ptr_from_int64] are
    macros of xio_os.h, which is not part of the file: the casts between a
    handle's address and the fixed-width token that travels in the pipe. *)
Definition uint64_from_ptr (p : Z) : Z := to_uint64 p.

Definition ptr_from_int64 (i : Z) : Z := to_uint64 i.

Definition EAGAIN : Z := 11.

(** [write(pipe_fd[1], buf, n)] answered [ret] by the kernel: a negative
    answer leaves the pipe as it was, otherwise the first [ret] bytes of the
    buffer are queued. *)
Definition sys_write {R} (ret : Z) (buf : list Z) (m : machine R) : machine R :=
  if ret <? 0 then m
  else with_pipe (pipe m ++ firstn (Z.to_nat ret) buf) m.

(** [read(pipe_fd[0], buf, n)] on the non-blocking read end: would block
    (-1, EAGAIN) on an empty pipe, otherwise hands over up to [n] bytes. *)
Definition sys_read {R} (n : nat) (m : machine R)
  : Z * Z * list Z * machine R :=
  match pipe m with
  | nil => (-1, EAGAIN, nil, m)
  | _ => let got := firstn n (pipe m) in
         (Z.of_nat (length got), 0, got, with_pipe (skipn n (pipe m)) m)
  end.

(** [read(timer_fd, &exp, 8)] on the non-blocking timer: the count of
    expirations since the last read or setting, or would-block. *)
Definition timerfd_read {R} (m : machine R) : Z * Z * Z * machine R :=
  let t := timer m in
  if 0 <? tfd_expirations t
  then (8, 0, tfd_expirations t,
        with_timer (mk_timerfd (tfd_setting t) (tfd_fired t) 0) m)
  else (-1, EAGAIN, 0, m).

(** The timer's expiration passes: a one-shot timer that is set fires, which
    makes [timer_fd] readable. *)
Definition timer_fires {R} (m : machine R) : machine R :=
  let t := timer m in
  if timer_is_set t
  then with_timer (mk_timerfd (tfd_setting t) true (tfd_expirations t + 1)) m
  else m.

(** ** Callbacks *)

(** What running [function(data)] does to the machine. *)
Class Callbacks (R : Type) : Type := {
  run_callback : Z -> Z -> machine R -> machine R
}.

(** ** Immediate work *)

Definition xio_workqueue_add_work {R}
    (write_ret : Z) (data function : Z) (work : Z) (m : machine R)
  : Z * machine R :=
  let exp := uint64_from_ptr work in
  let w := load_work (mem m) work in
  let m1 := store_work work
              (mk_work function data (set_bits XIO_WORK_PENDING (work_flags w)))
              m in
  let m2 := sys_write write_ret (bytes_of_word 8 exp) m1 in
  let s := write_ret in
  if s <? 0 then (-1, ERROR_LOG "failed to write to pipe" m2)
  else if negb (s =? 8) then (-1, ERROR_LOG "failed to write to pipe" m2)
  else (0, m2).

Definition xio_workqueue_del_work {R} (work : Z) (m : machine R)
  : Z * machine R :=
  let w := load_work (mem m) work in
  if test_bits XIO_WORK_PENDING (work_flags w)
  then (0, store_work work
             (mk_work (function w) (data w)
                      (clr_bits XIO_WORK_PENDING (work_flags w))) m)
  else (-1, m).

(** The [while (1)] loop of the handler; [fuel] bounds the number of reads
    and [None] means the bound was reached with the loop still running. *)
Fixpoint xio_work_action_handler {R} `{Callbacks R}
    (fuel : nat) (m : machine R) : option (machine R) :=
  match fuel with
  | O => None
  | S fuel' =>
      let '(s, errno, buf, m1) := sys_read 8 m in
      if s <? 0 then
        Some (if negb (errno =? EAGAIN)
              then ERROR_LOG "failed to read from pipe" m1 else m1)
      else if negb (s =? 8) then
        Some (ERROR_LOG "failed to read from pipe" m1)
      else
        let exp := to_int64 (word_of_bytes buf) in
        let work := ptr_from_int64 exp in
        let w := load_work (mem m1) work in
        if test_bits XIO_WORK_PENDING (work_flags w) then
          let m2 := store_work work
                      (mk_work (function w) (data w)
                               (clr_bits XIO_WORK_PENDING (work_flags w))) m1 in
          xio_work_action_handler fuel'
            (run_callback (function w) (data w) m2)
        else xio_work_action_handler fuel' m1
  end.

(** What the spec has the handler do with the tokens of handles [works],
    queued in that order: each in turn is taken off the pipe and, if its
    item is still Pending, the item goes Idle and then its callback runs. *)
Fixpoint tokens_of (works : list Z) : list Z :=
  match works with
  | nil => nil
  | work :: rest => bytes_of_word 8 (uint64_from_ptr work) ++ tokens_of rest
  end.

Definition dispatch {R} `{Callbacks R} (work : Z) (m : machine R)
  : machine R :=
  let w := load_work (mem m) work in
  if work_pending m work
  then run_callback (function w) (data w)
         (store_work work
            (mk_work (function w) (data w)
                     (clr_bits XIO_WORK_PENDING (work_flags w))) m)
  else m.

Fixpoint drain {R} `{Callbacks R} (works : list Z) (m : machine R)
  : machine R :=
  match works with
  | nil => m
  | work :: rest => drain rest (dispatch work (with_pipe (tokens_of rest) m))
  end.

(** ** Delayed work *)

(** The registry's lock is taken and dropped around the bodies below; the
    embedding runs one call at a time, so the lock leaves no trace in it. *)
Definition xio_workqueue_add_delayed_work {R} `{TimersList R}
    (settime_ret : Z) (msec_duration data function : Z) (dwork : Z)
    (m : machine R) : Z * machine R :=
  let w := load_work (mem m) dwork in
  let m1 := store_work dwork
              (mk_work function data (set_bits XIO_WORK_PENDING (work_flags w)))
              m in
  let '(rc, tl) :=
    xio_timers_list_add_duration
      (timers_list (work_queue m1))
      (to_uint64 (to_uint64 msec_duration * 1000000))
      dwork in
  let m2 := with_timers_list tl m1 in
  if is_rc_error rc then (-1, ERROR_LOG "adding to timer failed" m2)
  else
    let '(retval, m3) := xio_workqueue_rearm settime_ret m2 in
    if negb (retval =? 0)
    then (retval, ERROR_LOG "xio_workqueue_rearm failed" m3)
    else (retval, m3).

(** [disarm_ret] and [rearm_ret] are the kernel's answers to the
    [timerfd_settime] of the disarm and of the rearm. *)
Definition xio_workqueue_del_delayed_work {R} `{TimersList R}
    (disarm_ret rearm_ret : Z) (dwork : Z) (m : machine R) : Z * machine R :=
  let retval := 0 in
  let m1 := xio_workqueue_disarm disarm_ret m in
  let w := load_work (mem m1) dwork in
  let m2 := store_work dwork
              (mk_work (function w) (data w)
                       (clr_bits XIO_WORK_PENDING (work_flags w))) m1 in
  let '(rc, tl) :=
    xio_timers_list_del (timers_list (work_queue m2)) dwork in
  let m3 := with_timers_list tl m2 in
  if is_rc_error rc
  then (retval, ERROR_LOG "deleting work from queue failed. queue is empty" m3)
  else
    let '(retval, m4) := xio_workqueue_rearm rearm_ret m3 in
    if negb (retval =? 0)
    then (retval, ERROR_LOG "xio_workqueue_rearm failed" m4)
    else (retval, m4).

(** Modelled from the spec: [xio_timers_list_expire] is a function of
    xio_timers_list.h, which is not part of the file.  It expires every entry
    due at or before now, first deadline first and once each: the entry is
    taken off the registry, its item goes from Pending to Idle and its
    callback runs.  An entry a callback of the pass cancels is not expired,
    and one a callback submits waits for a later pass. *)
Fixpoint expire_entries {R} `{TimersList R} `{Callbacks R}
    (due : list Z) (m : machine R) : machine R :=
  match due with
  | nil => m
  | tentry :: rest =>
      let tl := timers_list (work_queue m) in
      if existsb (Z.eqb tentry) (xio_timers_list_due tl) then
        let m1 := with_timers_list (snd (xio_timers_list_del tl tentry)) m in
        let w := load_work (mem m1) tentry in
        let m2 := store_work tentry
                    (mk_work (function w) (data w)
                             (clr_bits XIO_WORK_PENDING (work_flags w))) m1 in
        expire_entries rest (run_callback (function w) (data w) m2)
      else expire_entries rest m
  end.

Definition xio_timers_list_expire {R} `{TimersList R} `{Callbacks R}
    (m : machine R) : machine R :=
  expire_entries (xio_timers_list_due (timers_list (work_queue m))) m.

Definition xio_delayed_action_handler {R} `{TimersList R} `{Callbacks R}
    (settime_ret : Z) (m : machine R) : machine R :=
  let '(s, errno, exp, m1) := timerfd_read m in
  if s <? 0 then
    (if negb (errno =? EAGAIN)
     then ERROR_LOG "failed to read from timerfd" m1 else m1)
  else if negb (s =? 8) then ERROR_LOG "failed to read from timerfd" m1
  else
    let m2 := with_flags
                (set_bits XIO_WORKQUEUE_IN_POLL (flags (work_queue m1))) m1 in
    let m3 := xio_timers_list_expire m2 in
    let m4 := with_flags
                (clr_bits XIO_WORKQUEUE_IN_POLL (flags (work_queue m3))) m3 in
    snd (xio_workqueue_rearm settime_ret m4).

(** ** xio_workqueue_create *)

(** What the process holds: live allocations, open descriptors, and the
    descriptors registered with the context's event loop. *)
Inductive os_call : Type :=
  | call_ucalloc (p : Z)
  | call_timerfd_create (fd : Z)
  | call_pipe2 (fd0 fd1 : Z)
  | call_add_ev_handler (fd : Z)
  | call_del_ev_handler (fd : Z)
  | call_close (fd : Z)
  | call_ufree (p : Z).

Record os_state : Type := mk_os {
  allocated : list Z;
  open_fds : list Z;
  ev_handlers : list Z;
  os_calls : list os_call        (* successful calls, latest first *)
}.

(** The answers the allocator, the kernel and the context give to create. *)
Record create_env : Type := mk_create_env {
  ucalloc_ret : Z;                 (* 0 is NULL *)
  timerfd_create_ret : Z;
  pipe2_ret : Z;
  pipe2_fds : Z * Z;
  add_timer_handler_ret : Z;
  add_pipe_handler_ret : Z
}.

Fixpoint remove_one (x : Z) (l : list Z) : list Z :=
  match l with
  | nil => nil
  | y :: t => if x =? y then t else y :: remove_one x t
  end.

Definition ucalloc (p : Z) (os : os_state) : os_state :=
  if p =? 0 then os
  else mk_os (p :: allocated os) (open_fds os) (ev_handlers os)
             (call_ucalloc p :: os_calls os).

Definition ufree (p : Z) (os : os_state) : os_state :=
  mk_os (remove_one p (allocated os)) (open_fds os) (ev_handlers os)
        (call_ufree p :: os_calls os).

Definition timerfd_create (fd : Z) (os : os_state) : os_state :=
  if fd <? 0 then os
  else mk_os (allocated os) (fd :: open_fds os) (ev_handlers os)
             (call_timerfd_create fd :: os_calls os).

Definition pipe2 (ret : Z) (fds : Z * Z) (os : os_state) : os_state :=
  if ret <? 0 then os
  else mk_os (allocated os) (fst fds :: snd fds :: open_fds os)
             (ev_handlers os) (call_pipe2 (fst fds) (snd fds) :: os_calls os).

Definition close (fd : Z) (os : os_state) : os_state :=
  mk_os (allocated os) (remove_one fd (open_fds os)) (ev_handlers os)
        (call_close fd :: os_calls os).

Definition xio_context_add_ev_handler (ret : Z) (fd : Z) (os : os_state)
  : os_state :=
  if negb (ret =? 0) then os
  else mk_os (allocated os) (open_fds os) (fd :: ev_handlers os)
             (call_add_ev_handler fd :: os_calls os).

Definition xio_context_del_ev_handler (ret : Z) (fd : Z) (os : os_state)
  : os_state :=
  if negb (ret =? 0) then os
  else mk_os (allocated os) (open_fds os) (remove_one fd (ev_handlers os))
             (call_del_ev_handler fd :: os_calls os).

(** A queue as create returns it. *)
Definition fresh_queue {R} `{TimersList R} (ctx timer_fd : Z) (fds : Z * Z)
  : xio_workqueue R :=
  mk_workqueue ctx xio_timers_list_init timer_fd fds 0.

(** The three exit labels of the function. *)
Definition create_exit (p : Z) (os : os_state) : os_state := ufree p os.

Definition create_exit1 (p timer_fd : Z) (os : os_state) : os_state :=
  create_exit p (close timer_fd os).

Definition create_exit2 (p timer_fd : Z) (fds : Z * Z) (os : os_state)
  : os_state :=
  create_exit1 p timer_fd (close (snd fds) (close (fst fds) os)).

(** Returns the queue ([None] for NULL) and what the process holds then. *)
Definition xio_workqueue_create {R} `{TimersList R}
    (env : create_env) (ctx : Z) (os : os_state)
  : option (xio_workqueue R) * os_state :=
  let p := ucalloc_ret env in
  let os1 := ucalloc p os in
  if p =? 0 then (None, os1)
  else
    let tfd := timerfd_create_ret env in
    let os2 := timerfd_create tfd os1 in
    if tfd <? 0 then (None, create_exit p os2)
    else
      let os3 := pipe2 (pipe2_ret env) (pipe2_fds env) os2 in
      if pipe2_ret env <? 0 then (None, create_exit1 p tfd os3)
      else
        let os4 :=
          xio_context_add_ev_handler (add_timer_handler_ret env) tfd os3 in
        if negb (add_timer_handler_ret env =? 0)
        then (None, create_exit2 p tfd (pipe2_fds env) os4)
        else
          let os5 :=
            xio_context_add_ev_handler (add_pipe_handler_ret env)
                                       (fst (pipe2_fds env)) os4 in
          if negb (add_pipe_handler_ret env =? 0)
          then (None, create_exit2 p tfd (pipe2_fds env) os5)
          else (Some (fresh_queue ctx tfd (pipe2_fds env)), os5).

(** Every step of create is answered with a success. *)
Definition create_succeeds (env : create_env) : bool :=
  negb (ucalloc_ret env =? 0) && (0 <=? timerfd_create_ret env)
  && (0 <=? pipe2_ret env) && (add_timer_handler_ret env =? 0)
  && (add_pipe_handler_ret env =? 0).

(** [p] is the address of the queue's own storage; the registry's close
    releases nothing the state here tracks.  The machine that comes back is
    the one the freed queue leaves behind, with what was logged. *)
Definition xio_workqueue_destroy {R}
    (disarm_ret del_timer_ret del_pipe_ret : Z) (p : Z)
    (m : machine R) (os : os_state) : Z * machine R * os_state :=
  let m1 := xio_workqueue_disarm disarm_ret m in
  let q := work_queue m1 in
  let retval := del_timer_ret in
  let os1 := xio_context_del_ev_handler retval (timer_fd q) os in
  let m2 := if negb (retval =? 0)
            then ERROR_LOG "ev_loop_del_cb failed" m1 else m1 in
  let retval := del_pipe_ret in
  let os2 := xio_context_del_ev_handler retval (fst (pipe_fd q)) os1 in
  let m3 := if negb (retval =? 0)
            then ERROR_LOG "ev_loop_del_cb failed" m2 else m2 in
  let os3 := close (fst (pipe_fd q)) os2 in
  let os4 := close (snd (pipe_fd q)) os3 in
  let os5 := close (timer_fd q) os4 in
  (retval, m3, ufree p os5).

(** [os] holds no allocation, descriptor or registration that [os0] did not
    hold. *)
Definition holds_nothing_beyond (os0 os : os_state) : Prop :=
  allocated os = allocated os0 /\
  open_fds os = open_fds os0 /\
  ev_handlers os = ev_handlers os0.

(** ** Two registries *)

(** Modelled from the spec: the deadline registry of xio_timers_list.h,
    which is not part of the file: an ordered collection of pending
    deadlines with insert (keyed by now + duration, ties in registration
    order), remove by entry (an error if the entry is not there), the
    nanoseconds until the next expiry (-1 if there is none, 0 if it has
    passed) and the entries due now.  An entry is embedded in its handle, so
    it is linked at most once: adding a linked entry moves it.  The spec
    gives insertion an error result without saying when it occurs; here the
    environment raises [refusing] to make it occur. *)
Record deadline_list : Type := mk_deadlines {
  clock : Z;                    (* the monotonic clock, nanoseconds *)
  deadlines : list (Z * Z);     (* (entry, expires), first to expire first *)
  refusing : bool
}.

Fixpoint insert_deadline (e x : Z) (l : list (Z * Z)) : list (Z * Z) :=
  match l with
  | nil => (e, x) :: nil
  | (e', x') :: t =>
      if x <? x' then (e, x) :: (e', x') :: t
      else (e', x') :: insert_deadline e x t
  end.

Definition unlink (e : Z) (l : list (Z * Z)) : list (Z * Z) :=
  List.filter (fun p => negb (fst p =? e)) l.

Definition linked (e : Z) (l : list (Z * Z)) : bool :=
  existsb (fun p => fst p =? e) l.

Definition deadline_add (tl : deadline_list) (ns_duration e : Z)
  : timers_list_rc * deadline_list :=
  if refusing tl then (TIMERS_LIST_RC_ERROR, tl)
  else
    ((match deadlines tl with
      | nil => TIMERS_LIST_RC_EMPTY
      | _ => TIMERS_LIST_RC_NOT_EMPTY
      end),
     mk_deadlines (clock tl)
       (insert_deadline e (clock tl + ns_duration) (unlink e (deadlines tl)))
       (refusing tl)).

Definition deadline_del (tl : deadline_list) (e : Z)
  : timers_list_rc * deadline_list :=
  if linked e (deadlines tl)
  then (TIMERS_LIST_RC_OK,
        mk_deadlines (clock tl) (unlink e (deadlines tl)) (refusing tl))
  else (TIMERS_LIST_RC_ERROR, tl).

Definition deadline_ns_to_expire (tl : deadline_list) : Z :=
  match deadlines tl with
  | nil => -1
  | (_, x) :: _ => if x <? clock tl then 0 else to_int64 (x - clock tl)
  end.

Definition deadline_due (tl : deadline_list) : list Z :=
  map fst (List.filter (fun p => snd p <=? clock tl) (deadlines tl)).

#[export] Instance deadline_registry : TimersList deadline_list := {
  xio_timers_list_init := mk_deadlines 0 nil false;
  xio_timers_list_is_empty tl :=
    match deadlines tl with nil => true | _ => false end;
  xio_timerlist_ns_duration_to_expire := deadline_ns_to_expire;
  xio_timers_list_add_duration := deadline_add;
  xio_timers_list_del := deadline_del;
  xio_timers_list_due := deadline_due
}.

Definition advance_clock (dt : Z) (tl : deadline_list) : deadline_list :=
  mk_deadlines (clock tl + dt) (deadlines tl) (refusing tl).

Definition set_refusing (b : bool) (tl : deadline_list) : deadline_list :=
  mk_deadlines (clock tl) (deadlines tl) b.

(** A registry that is nothing but its answers: whatever is asked of it, it
    gives the answer it holds.  It stands for any implementation at the one
    moment of a call. *)
Record answers : Type := mk_answers {
  answer_is_empty : bool;
  answer_ns_to_expire : Z;
  answer_add : timers_list_rc;
  answer_del : timers_list_rc
}.

#[export] Instance answering_registry : TimersList answers := {
  xio_timers_list_init := mk_answers true (-1) TIMERS_LIST_RC_OK
                                     TIMERS_LIST_RC_ERROR;
  xio_timers_list_is_empty := answer_is_empty;
  xio_timerlist_ns_duration_to_expire := answer_ns_to_expire;
  xio_timers_list_add_duration tl _ _ := (answer_add tl, tl);
  xio_timers_list_del tl _ := (answer_del tl, tl);
  xio_timers_list_due _ := nil
}.

(** ** Runs of the queue *)

(** The machine a fresh queue starts on: timer disarmed, pipe empty, no
    handle touched yet. *)
Definition boot {R} (q : xio_workqueue R) : machine R :=
  mk_machine q (mk_timerfd zero_itimerspec false 0) nil ∅ nil.

(** The calls a callback may make into the queue, with the kernel's
    answers to the timer calls they lead to. *)
Inductive api_call : Type :=
  | api_add_delayed_work (settime_ret msec_duration data function dwork : Z)
  | api_del_delayed_work (disarm_ret rearm_ret dwork : Z).

Definition run_api_call {R} `{TimersList R} (c : api_call) (m : machine R)
  : machine R :=
  match c with
  | api_add_delayed_work r ms d f h =>
      snd (xio_workqueue_add_delayed_work r ms d f h m)
  | api_del_delayed_work r1 r2 h =>
      snd (xio_workqueue_del_delayed_work r1 r2 h m)
  end.

Definition run_api {R} `{TimersList R} (cs : list api_call) (m : machine R)
  : machine R :=
  fold_left (fun m c => run_api_call c m) cs m.

(** Callbacks that act on the machine through the queue's entry points:
    [body f d] is what [f(d)] calls. *)
Definition scripted {R} `{TimersList R} (body : Z -> Z -> list api_call)
  : Callbacks R :=
  {| run_callback f d m := run_api (body f d) m |}.

Inductive step (R : Type) : Type :=
  | step_api (c : api_call)
  | step_delayed_action_handler (settime_ret : Z)
  | step_rearm (settime_ret : Z)
  | step_disarm (settime_ret : Z)
  | step_timer_fires
  | step_registry (f : R -> R).   (* the registry moves on its own *)

Arguments step_api {R} _.
Arguments step_delayed_action_handler {R} _.
Arguments step_rearm {R} _.
Arguments step_disarm {R} _.
Arguments step_timer_fires {R}.
Arguments step_registry {R} _.

Definition exec {R} `{TimersList R} (body : Z -> Z -> list api_call)
    (s : step R) (m : machine R) : machine R :=
  match s with
  | step_api c => run_api_call c m
  | step_delayed_action_handler r =>
      @xio_delayed_action_handler R _ (scripted body) r m
  | step_rearm r => snd (xio_workqueue_rearm r m)
  | step_disarm r => xio_workqueue_disarm r m
  | step_timer_fires => timer_fires m
  | step_registry f => with_timers_list (f (timers_list (work_queue m))) m
  end.

Definition run {R} `{TimersList R} (body : Z -> Z -> list api_call)
    (ss : list (step R)) (m : machine R) : machine R :=
  fold_left (fun m s => exec body s m) ss m.

(** No [timerfd_settime] of a disarm fails. *)
Definition api_disarms_succeed (c : api_call) : bool :=
  match c with
  | api_add_delayed_work _ _ _ _ _ => true
  | api_del_delayed_work disarm_ret _ _ => 0 <=? disarm_ret
  end.

Definition disarms_succeed {R} (s : step R) : bool :=
  match s with
  | step_api c => api_disarms_succeed c
  | step_disarm r => 0 <=? r
  | _ => true
  end.

(** The steps of delayed work over the deadline list: submit, cancel, the
    timer firing and its handler, the clock advancing, and the registry
    starting or ceasing to refuse insertions. *)
Inductive delayed_event : Type :=
  | ev_submit_delayed (settime_ret msec_duration data function dwork : Z)
  | ev_cancel_delayed (disarm_ret rearm_ret dwork : Z)
  | ev_timer_fires
  | ev_expiry_handler (settime_ret : Z)
  | ev_clock (dt : Z)
  | ev_refusing (b : bool).

Definition step_of_event (e : delayed_event) : step deadline_list :=
  match e with
  | ev_submit_delayed r ms d f h => step_api (api_add_delayed_work r ms d f h)
  | ev_cancel_delayed r1 r2 h => step_api (api_del_delayed_work r1 r2 h)
  | ev_timer_fires => step_timer_fires
  | ev_expiry_handler r => step_delayed_action_handler r
  | ev_clock dt => step_registry (advance_clock dt)
  | ev_refusing b => step_registry (set_refusing b)
  end.

Definition never_refusing (e : delayed_event) : bool :=
  match e with
  | ev_refusing b => negb b
  | _ => true
  end.

Definition registered (m : machine deadline_list) (dwork : Z) : bool :=
  linked dwork (deadlines (timers_list (work_queue m))).

(** TIMER_ARMED tells whether the setting last programmed is non-zero. *)
Definition armed_consistent {R} (m : machine R) : Prop :=
  test_bits XIO_WORKQUEUE_TIMER_ARMED (flags (work_queue m)) =
  negb (timespec_is_zero (it_value (tfd_setting (timer m)))).

(** Every registered entry belongs to a Pending item. *)
Definition registered_are_pending (m : machine deadline_list) : Prop :=
  forall dwork, registered m dwork = true -> work_pending m dwork = true.

(** The registry accepts insertions, and the registered entries are those
    of the Pending items. *)
Definition registered_iff_pending (m : machine deadline_list) : Prop :=
  refusing (timers_list (work_queue m)) = false /\
  forall dwork, registered m dwork = work_pending m dwork.

(** Taking an entry off the registry and clearing its item's Pending bit:
    what cancel and the expiry of an entry have in common. *)
Definition detach (e : Z) (m : machine deadline_list) : machine deadline_list :=
  let m1 := with_timers_list
              (snd (deadline_del (timers_list (work_queue m)) e)) m in
  let w := load_work (mem m1) e in
  store_work e
    (mk_work (function w) (data w) (clr_bits XIO_WORK_PENDING (work_flags w)))
    m1.

(** Marking an item Pending with its callback stored and putting its entry
    on the registry: the part of submit that the invariants read. *)
Definition attach (msec_duration arg fn e : Z) (m : machine deadline_list)
  : machine deadline_list :=
  let m1 := store_work e
              (mk_work fn arg
                 (set_bits XIO_WORK_PENDING
                    (work_flags (load_work (mem m) e)))) m in
  with_timers_list
    (snd (deadline_add (timers_list (work_queue m1))
            (to_uint64 (to_uint64 msec_duration * 1000000)) e)) m1.

(** The events a run may contain, given which settings of [refusing] it
    may make. *)
Definition event_allowed (allowed : bool -> bool) (e : delayed_event) : bool :=
  match e with
  | ev_refusing b => allowed b
  | _ => true
  end.

(** The values of the queue's flags word inside and outside an expiry
    pass. *)
Definition pass_flags (in_pass : bool) (f : Z) : Prop :=
  if in_pass
  then f = XIO_WORKQUEUE_IN_POLL
       \/ f = Z.lor XIO_WORKQUEUE_IN_POLL XIO_WORKQUEUE_TIMER_ARMED
  else f = 0 \/ f = XIO_WORKQUEUE_TIMER_ARMED.

(** The timer has no expiration waiting to be read. *)
Definition nothing_to_read {R} (m : machine R) : Prop :=
  tfd_expirations (timer m) <= 0.

(** The timer as a successful rearm for [r] nanoseconds leaves it. *)
Definition programmed_for (r : Z) : timerfd :=
  mk_timerfd (mk_itimerspec zero_timespec (rearm_delay r)) false 0.

(** ** Sample states *)

(** Callbacks that call nothing. *)
Definition quiet (f d : Z) : list api_call := nil.

Definition sample_queue : xio_workqueue deadline_list :=
  fresh_queue 1 3 (4, 5).

(** A fresh queue after one submit of 2500 ms on the handle at 1000. *)
Definition sample_armed : machine deadline_list :=
  snd (xio_workqueue_add_delayed_work 0 2500 8 7 1000 (boot sample_queue)).

(** A fresh queue after one immediate submit on the handle at 1000. *)
Definition sample_queued : machine deadline_list :=
  snd (xio_workqueue_add_work 8 8 7 1000 (boot sample_queue)).

(** Submit with 10 ms, let the time pass, the timer fire and its handler
    run. *)
Definition sample_expiry : list delayed_event :=
  ev_submit_delayed 0 10 8 7 1000 :: ev_clock 10000000 :: ev_timer_fires
  :: ev_expiry_handler 0 :: nil.

(** One submit with 10 ms. *)
Definition sample_submit : list delayed_event :=
  ev_submit_delayed 0 10 8 7 1000 :: nil.

(** The registry refuses, then a submit. *)
Definition sample_refused : list delayed_event :=
  ev_refusing true :: ev_submit_delayed 0 10 8 7 1000 :: nil.

Definition sample_env : create_env := mk_create_env 4096 3 0 (4, 5) 0 (-1).

Definition sample_os : os_state := mk_os nil (0 :: 1 :: 2 :: nil) nil nil.

(** Every step of create answered with a success. *)
Definition sample_env_ok : create_env := mk_create_env 4096 3 0 (4, 5) 0 0.

(** Two submits, 10 ms on the handle at 1000 and 2500 ms on the one at 2000;
    then 10 ms pass and the timer fires. *)
Definition sample_two_fired : machine deadline_list :=
  run quiet
    (map step_of_event
       (ev_submit_delayed 0 10 8 7 1000 :: ev_submit_delayed 0 2500 9 7 2000
        :: ev_clock 10000000 :: ev_timer_fires :: nil))
    (boot sample_queue).

(** A submit of 2500 ms whose rearm the kernel refused: the entry is
    registered and the timer is not programmed. *)
Definition sample_unarmed : machine deadline_list :=
  snd (xio_workqueue_add_delayed_work (-1) 2500 8 7 1000 (boot sample_queue)).

(** The timer cannot be created. *)
Definition sample_env_no_timer : create_env :=
  mk_create_env 4096 (-1) 0 (4, 5) 0 0.

(** A fresh queue whose registry refuses insertions. *)
Definition sample_refusing : machine deadline_list :=
  run quiet (map step_of_event (ev_refusing true :: nil)) (boot sample_queue).

(** A fresh queue in the middle of an expiry pass. *)
Definition sample_in_pass : machine deadline_list :=
  with_flags XIO_WORKQUEUE_IN_POLL (boot sample_queue).

(** A fresh queue with three stray bytes in the pipe. *)
Definition sample_stray : machine deadline_list :=
  with_pipe (1 :: 2 :: 3 :: nil) (boot sample_queue).

(** * Properties *)

(** ** Flag words *)

Lemma land_lor_same (f mask : Z) : Z.land (Z.lor f mask) mask = mask.
Proof.
  apply Z.bits_inj'; intros n Hn.
  rewrite Z.land_spec, Z.lor_spec.
  destruct (Z.testbit f n), (Z.testbit mask n); reflexivity.
Qed.

Lemma land_clr_same (f mask : Z) : Z.land (Z.land f (Z.lnot mask)) mask = 0.
Proof.
  apply Z.bits_inj'; intros n Hn.
  rewrite !Z.land_spec, Z.lnot_spec, Z.bits_0 by lia.
  destruct (Z.testbit f n), (Z.testbit mask n); reflexivity.
Qed.

Lemma disjoint_bits (a b : Z) (n : Z) :
  Z.land a b = 0 -> Z.testbit a n && Z.testbit b n = false.
Proof.
  intros H. rewrite <- Z.land_spec, H. apply Z.bits_0.
Qed.

Lemma land_lor_other (f mask other : Z) :
  Z.land other mask = 0 -> Z.land (Z.lor f other) mask = Z.land f mask.
Proof.
  intros H. apply Z.bits_inj'; intros n Hn.
  rewrite !Z.land_spec, Z.lor_spec.
  pose proof (disjoint_bits _ _ n H) as D.
  destruct (Z.testbit f n), (Z.testbit mask n), (Z.testbit other n);
    simpl in *; congruence.
Qed.

Lemma land_clr_other (f mask other : Z) :
  Z.land other mask = 0 ->
  Z.land (Z.land f (Z.lnot other)) mask = Z.land f mask.
Proof.
  intros H. apply Z.bits_inj'; intros n Hn.
  rewrite !Z.land_spec, Z.lnot_spec by lia.
  pose proof (disjoint_bits _ _ n H) as D.
  destruct (Z.testbit f n), (Z.testbit mask n), (Z.testbit other n);
    simpl in *; congruence.
Qed.

Lemma test_set_bits (mask f : Z) :
  mask <> 0 -> test_bits mask (set_bits mask f) = true.
Proof.
  intros H. unfold test_bits, set_bits. rewrite land_lor_same.
  destruct (Z.eqb_spec mask 0); [contradiction | reflexivity].
Qed.

Lemma test_clr_bits (mask f : Z) : test_bits mask (clr_bits mask f) = false.
Proof. unfold test_bits, clr_bits. now rewrite land_clr_same. Qed.

Lemma test_set_other (mask other f : Z) :
  Z.land other mask = 0 ->
  test_bits mask (set_bits other f) = test_bits mask f.
Proof. intros H. unfold test_bits, set_bits. now rewrite land_lor_other. Qed.

Lemma test_clr_other (mask other f : Z) :
  Z.land other mask = 0 ->
  test_bits mask (clr_bits other f) = test_bits mask f.
Proof. intros H. unfold test_bits, clr_bits. now rewrite land_clr_other. Qed.

Lemma clr_bits_idle (mask f : Z) :
  test_bits mask f = false -> clr_bits mask f = f.
Proof.
  unfold test_bits, clr_bits. intros H.
  apply negb_false_iff, Z.eqb_eq in H.
  apply Z.bits_inj'; intros n Hn.
  rewrite Z.land_spec, Z.lnot_spec by lia.
  pose proof (disjoint_bits _ _ n H) as D.
  destruct (Z.testbit f n), (Z.testbit mask n); simpl in *; congruence.
Qed.

(** ** Normalising a timespec *)

Lemma carry_seconds_spec (sec nsec : Z) :
  0 <= nsec ->
  carry_seconds sec nsec = (sec + nsec / XIO_NS_IN_SEC, nsec mod XIO_NS_IN_SEC).
Proof.
  funelim (carry_seconds sec nsec); intros Hpos.
  - rewrite Z.div_small, Z.mod_small by lia. f_equal. lia.
  - rewrite H by (unfold XIO_NS_IN_SEC, NSEC_PER_SEC in *; lia).
    unfold XIO_NS_IN_SEC, NSEC_PER_SEC in *.
    replace (nsec - 1000000000) with (nsec + (-1) * 1000000000) by lia.
    rewrite Z.div_add, Z.mod_add by lia. f_equal. lia.
Qed.

Lemma borrow_seconds_idle (sec nsec : Z) :
  0 <= nsec -> borrow_seconds sec nsec = (sec, nsec).
Proof.
  intros Hpos. funelim (borrow_seconds sec nsec); [lia | reflexivity].
Qed.

Lemma set_normalized_timespec_spec (sec nsec : Z) :
  0 <= nsec ->
  set_normalized_timespec sec nsec =
  mk_timespec (sec + nsec / XIO_NS_IN_SEC) (nsec mod XIO_NS_IN_SEC).
Proof.
  intros Hpos. unfold set_normalized_timespec.
  rewrite carry_seconds_spec by assumption.
  rewrite borrow_seconds_idle; [reflexivity |].
  apply Z.mod_pos_bound. reflexivity.
Qed.

Lemma normalized_is_positive (r : Z) :
  1 <= r ->
  timespec_is_zero (mk_timespec (r / XIO_NS_IN_SEC) (r mod XIO_NS_IN_SEC))
  = false.
Proof.
  intros Hr. unfold timespec_is_zero; simpl.
  apply andb_false_iff.
  destruct (Z.eqb_spec (r / XIO_NS_IN_SEC) 0) as [Hq |]; [right | now left].
  apply Z.eqb_neq. intros Hm.
  pose proof (Z.div_mod r XIO_NS_IN_SEC) as D.
  unfold XIO_NS_IN_SEC, NSEC_PER_SEC in *. lia.
Qed.

(** ** The arm, disarm and rearm protocol *)

Lemma rearm_in_poll {R} `{TimersList R} (settime_ret : Z) (m : machine R) :
  test_bits XIO_WORKQUEUE_IN_POLL (flags (work_queue m)) = true ->
  xio_workqueue_rearm settime_ret m = (0, m).
Proof. intros Hp. unfold xio_workqueue_rearm. now rewrite Hp. Qed.

Lemma rearm_empty {R} `{TimersList R} (settime_ret : Z) (m : machine R) :
  xio_timers_list_is_empty (timers_list (work_queue m)) = true ->
  xio_workqueue_rearm settime_ret m = (0, m).
Proof.
  intros He. unfold xio_workqueue_rearm. rewrite He.
  now destruct (test_bits _ _).
Qed.

Lemma rearm_no_expiry {R} `{TimersList R} (settime_ret : Z) (m : machine R) :
  xio_timerlist_ns_duration_to_expire (timers_list (work_queue m)) = -1 ->
  xio_workqueue_rearm settime_ret m = (0, m).
Proof.
  intros Hr. unfold xio_workqueue_rearm. rewrite Hr.
  destruct (test_bits _ _); [reflexivity |].
  now destruct (xio_timers_list_is_empty _).
Qed.

Lemma rearm_programs {R} `{TimersList R} (settime_ret : Z) (m : machine R) :
  let q := work_queue m in
  let r := xio_timerlist_ns_duration_to_expire (timers_list q) in
  test_bits XIO_WORKQUEUE_IN_POLL (flags q) = false ->
  xio_timers_list_is_empty (timers_list q) = false ->
  r <> -1 ->
  xio_workqueue_rearm settime_ret m =
  if settime_ret <? 0
  then (-1, ERROR_LOG "timerfd_settime failed" m)
  else (0, with_flags (set_bits XIO_WORKQUEUE_TIMER_ARMED (flags q))
             (with_timer
                (mk_timerfd (mk_itimerspec zero_timespec (rearm_delay r))
                            false 0) m)).
Proof.
  intros q r Hp He Hr. unfold xio_workqueue_rearm.
  fold q. rewrite Hp, He. fold r.
  destruct (Z.eqb_spec r (-1)) as [| _]; [contradiction |].
  unfold timerfd_settime, rearm_delay.
  destruct (Z.ltb_spec r 1) as [Hlt | Hge].
  - destruct (settime_ret <? 0); reflexivity.
  - rewrite set_normalized_timespec_spec by lia. simpl.
    destruct (settime_ret <? 0); reflexivity.
Qed.

Lemma rearm_delay_positive (r : Z) : timespec_is_zero (rearm_delay r) = false.
Proof.
  unfold rearm_delay. destruct (Z.ltb_spec r 1); [reflexivity |].
  now apply normalized_is_positive.
Qed.


(** C4.  Disarm with TIMER_ARMED clear changes nothing.  With TIMER_ARMED
    set it programs the zero setting, and whether the kernel accepts it
    (the timer then holds zero) or refuses (the timer is as it was and the
    failure is logged), it clears TIMER_ARMED; it returns no status.  Rearm
    on an empty registry returns 0 and changes nothing. *)
Theorem disarm_protocol {R} `{TimersList R} (settime_ret : Z) (m : machine R) :
  let q := work_queue m in
  (test_bits XIO_WORKQUEUE_TIMER_ARMED (flags q) = false ->
   xio_workqueue_disarm settime_ret m = m) /\
  (test_bits XIO_WORKQUEUE_TIMER_ARMED (flags q) = true ->
   let m' := xio_workqueue_disarm settime_ret m in
   test_bits XIO_WORKQUEUE_TIMER_ARMED (flags (work_queue m')) = false /\
   (0 <= settime_ret ->
    m' = with_flags (clr_bits XIO_WORKQUEUE_TIMER_ARMED (flags q))
           (with_timer (mk_timerfd zero_itimerspec false 0) m)) /\
   (settime_ret < 0 ->
    m' = with_flags (clr_bits XIO_WORKQUEUE_TIMER_ARMED (flags q))
           (ERROR_LOG "timerfd_settime failed" m))) /\
  (xio_timers_list_is_empty (timers_list q) = true ->
   xio_workqueue_rearm settime_ret m = (0, m)).
Proof.
  intros q. split; [| split; [| apply rearm_empty]].
  - intros Hf. unfold xio_workqueue_disarm. fold q. now rewrite Hf.
  - intros Ht m'. subst m'. unfold xio_workqueue_disarm. fold q. rewrite Ht.
    simpl. unfold timerfd_settime.
    destruct (Z.ltb_spec settime_ret 0); simpl;
      (split; [apply test_clr_bits |]); split; intros; try lia; reflexivity.
Qed.

(** ** Immediate work *)

Lemma load_store_same {R} (a : Z) (w : xio_work_handle) (m : machine R) :
  load_work (mem (store_work a w m)) a = w.
Proof. unfold load_work, store_work; simpl. now rewrite lookup_insert_eq. Qed.

Lemma load_store_other {R} (a b : Z) (w : xio_work_handle) (m : machine R) :
  a <> b -> load_work (mem (store_work a w m)) b = load_work (mem m) b.
Proof.
  intros Hab. unfold load_work, store_work; simpl.
  now rewrite lookup_insert_ne.
Qed.

Lemma pending_nonzero : XIO_WORK_PENDING <> 0.
Proof. discriminate. Qed.

Lemma word_of_bytes_of_word (n : nat) (w : Z) :
  word_of_bytes (bytes_of_word n w) = w mod 256 ^ Z.of_nat n.
Proof.
  revert w. induction n as [| n IH]; intros w.
  - simpl. now rewrite Z.mod_1_r.
  - cbn [bytes_of_word word_of_bytes]. rewrite IH.
    rewrite Nat2Z.inj_succ, Z.pow_succ_r by lia.
    rewrite Z.rem_mul_r by lia. lia.
Qed.

Lemma length_bytes_of_word (n : nat) (w : Z) :
  length (bytes_of_word n w) = n.
Proof. revert w. induction n; intros; simpl; auto. Qed.

Lemma to_uint64_to_int64 (z : Z) : to_uint64 (to_int64 z) = to_uint64 z.
Proof.
  unfold to_uint64, to_int64.
  rewrite Zminus_mod_idemp_l. f_equal. lia.
Qed.

(** The token read back from the pipe names the handle it was made from. *)
Lemma token_names_handle (work : Z) :
  0 <= work < 2 ^ 64 ->
  ptr_from_int64
    (to_int64 (word_of_bytes (bytes_of_word 8 (uint64_from_ptr work)))) = work.
Proof.
  intros Hw. unfold ptr_from_int64, uint64_from_ptr.
  rewrite to_uint64_to_int64, word_of_bytes_of_word.
  unfold to_uint64. change (256 ^ Z.of_nat 8) with (2 ^ 64).
  rewrite !Z.mod_mod by lia. apply Z.mod_small. exact Hw.
Qed.

(** C5.  Add-work leaves the handle Pending with the callback and its
    argument stored, whatever the write does.  If the write would block
    (negative answer) it returns -1 and the pipe is as it was; if the write
    is short it returns -1 and fewer than eight bytes, no token, went into
    the pipe; if all eight bytes are written it returns 0 and the pipe has
    grown by exactly the eight-byte token, which reads back as the
    handle's address. *)
Theorem add_work_outcomes {R} (write_ret arg fn work : Z) (m : machine R) :
  let r := xio_workqueue_add_work write_ret arg fn work m in
  let token := bytes_of_word 8 (uint64_from_ptr work) in
  let w' := load_work (mem (snd r)) work in
  (work_pending (snd r) work = true /\ function w' = fn /\ data w' = arg) /\
  (write_ret < 0 -> fst r = -1 /\ pipe (snd r) = pipe m) /\
  (0 <= write_ret < 8 ->
   fst r = -1 /\
   exists k, (k < 8)%nat /\ pipe (snd r) = pipe m ++ firstn k token) /\
  (write_ret = 8 ->
   fst r = 0 /\ pipe (snd r) = pipe m ++ token /\ length token = 8%nat /\
   (0 <= work < 2 ^ 64 ->
    ptr_from_int64 (to_int64 (word_of_bytes token)) = work)).
Proof.
  intros r token w'. subst r w'. unfold xio_workqueue_add_work.
  fold token. unfold sys_write.
  set (w1 := mk_work fn arg _).
  assert (Hstored : forall m' : machine R,
             mem m' = mem (store_work work w1 m) ->
             work_pending m' work = true /\
             function (load_work (mem m') work) = fn /\
             data (load_work (mem m') work) = arg).
  { intros m' E. unfold work_pending. rewrite E, load_store_same.
    subst w1; simpl. split; [| split; reflexivity].
    apply test_set_bits, pending_nonzero. }
  split.
  { destruct (write_ret <? 0); [apply Hstored; reflexivity |].
    destruct (negb (write_ret =? 8)); apply Hstored; reflexivity. }
  split; [| split].
  - intros Hneg. destruct (Z.ltb_spec write_ret 0); [| lia]. now simpl.
  - intros Hshort. destruct (Z.ltb_spec write_ret 0); [lia |].
    destruct (Z.eqb_spec write_ret 8); [lia |]. simpl.
    split; [reflexivity |]. exists (Z.to_nat write_ret). split; [lia | reflexivity].
  - intros ->. simpl. split; [reflexivity |].
    split; [reflexivity |].
    split; [reflexivity |]. apply token_names_handle.
Qed.

(** C9.  Del-work on a Pending handle clears the Pending bit, keeps the rest
    of the handle and returns 0; on a handle that is not Pending it returns
    -1 and changes nothing. *)
Theorem del_work_outcomes {R} (work : Z) (m : machine R) :
  let w := load_work (mem m) work in
  (work_pending m work = true ->
   fst (xio_workqueue_del_work work m) = 0 /\
   work_pending (snd (xio_workqueue_del_work work m)) work = false /\
   snd (xio_workqueue_del_work work m) =
   store_work work
     (mk_work (function w) (data w)
              (clr_bits XIO_WORK_PENDING (work_flags w))) m) /\
  (work_pending m work = false ->
   xio_workqueue_del_work work m = (-1, m)).
Proof.
  intros w. unfold work_pending, xio_workqueue_del_work. fold w.
  split; intros Hp; rewrite Hp; [| reflexivity]. cbn [fst snd].
  split; [reflexivity |]. split; [| reflexivity].
  rewrite load_store_same. cbn [work_flags]. apply test_clr_bits.
Qed.

(** ** What rearm and disarm leave alone *)

Lemma rearm_frame {R} `{TimersList R} (settime_ret : Z) (m : machine R) :
  let m' := snd (xio_workqueue_rearm settime_ret m) in
  timers_list (work_queue m') = timers_list (work_queue m) /\
  mem m' = mem m /\ pipe m' = pipe m.
Proof.
  unfold xio_workqueue_rearm, timerfd_settime.
  repeat match goal with
         | |- context [if ?c then _ else _] => destruct c
         end; simpl; auto.
Qed.

Lemma disarm_frame {R} (settime_ret : Z) (m : machine R) :
  let m' := xio_workqueue_disarm settime_ret m in
  timers_list (work_queue m') = timers_list (work_queue m) /\
  mem m' = mem m /\ pipe m' = pipe m.
Proof.
  unfold xio_workqueue_disarm, timerfd_settime.
  repeat match goal with
         | |- context [if ?c then _ else _] => destruct c
         end; simpl; auto.
Qed.

Lemma store_work_queue {R} (a : Z) (w : xio_work_handle) (m : machine R) :
  work_queue (store_work a w m) = work_queue m.
Proof. reflexivity. Qed.

(** ** Delayed work: cancel and the duration of submit *)

Lemma del_delayed_work_del_error {R} `{TimersList R}
    (disarm_ret rearm_ret dwork : Z) (m : machine R) :
  is_rc_error
    (fst (xio_timers_list_del (timers_list (work_queue m)) dwork)) = true ->
  fst (xio_workqueue_del_delayed_work disarm_ret rearm_ret dwork m) = 0 /\
  timers_list
    (work_queue
       (snd (xio_workqueue_del_delayed_work disarm_ret rearm_ret dwork m))) =
  snd (xio_timers_list_del (timers_list (work_queue m)) dwork).
Proof.
  intros Herr. unfold xio_workqueue_del_delayed_work.
  cbn zeta. rewrite store_work_queue.
  destruct (disarm_frame disarm_ret m) as (Htl & _).
  cbn zeta in Htl. rewrite Htl.
  destruct (xio_timers_list_del (timers_list (work_queue m)) dwork)
    as [rc tl] eqn:E.
  cbn [fst snd] in *. rewrite Herr. cbn [fst snd]. split; reflexivity.
Qed.

(** C1 (the code departs from it).  When the registry's delete answers
    TIMERS_LIST_RC_ERROR, because the entry is not there, cancel-delayed
    logs the failure and returns 0, the success code. *)
Theorem del_delayed_work_unknown_entry_returns_success {R} `{TimersList R}
    (disarm_ret rearm_ret dwork : Z) (m : machine R) :
  fst (xio_timers_list_del (timers_list (work_queue m)) dwork)
  = TIMERS_LIST_RC_ERROR ->
  fst (xio_workqueue_del_delayed_work disarm_ret rearm_ret dwork m) = 0.
Proof.
  intros Herr. apply del_delayed_work_del_error. now rewrite Herr.
Qed.

Lemma add_delayed_work_registry {R} `{TimersList R}
    (settime_ret msec_duration arg fn dwork : Z) (m : machine R) :
  timers_list
    (work_queue
       (snd (xio_workqueue_add_delayed_work settime_ret msec_duration arg fn
                                            dwork m))) =
  snd (xio_timers_list_add_duration
         (timers_list (work_queue m))
         (to_uint64 (to_uint64 msec_duration * 1000000)) dwork).
Proof.
  unfold xio_workqueue_add_delayed_work. cbn zeta.
  rewrite store_work_queue.
  destruct (xio_timers_list_add_duration _ _ _) as [rc tl].
  cbn [snd]. destruct (is_rc_error rc); [reflexivity |].
  pose proof (rearm_frame settime_ret
                (with_timers_list tl
                   (store_work dwork
                      (mk_work fn arg
                         (set_bits XIO_WORK_PENDING
                            (work_flags (load_work (mem m) dwork)))) m)))
    as (Htl & _).
  cbn zeta in Htl.
  destruct (xio_workqueue_rearm _ _) as [retval m3]. cbn [snd] in Htl.
  destruct (negb (retval =? 0)); cbn [snd];
    [change (work_queue (ERROR_LOG _ m3)) with (work_queue m3) |];
    rewrite Htl; reflexivity.
Qed.

(** The sibling path: when the registry's insert answers
    TIMERS_LIST_RC_ERROR, submit-delayed returns -1. *)
Lemma add_delayed_work_insert_error {R} `{TimersList R}
    (settime_ret msec_duration arg fn dwork : Z) (m : machine R) :
  fst (xio_timers_list_add_duration
         (timers_list (work_queue m))
         (to_uint64 (to_uint64 msec_duration * 1000000)) dwork)
  = TIMERS_LIST_RC_ERROR ->
  fst (xio_workqueue_add_delayed_work settime_ret msec_duration arg fn
                                      dwork m) = -1.
Proof.
  intros Herr. unfold xio_workqueue_add_delayed_work. cbn zeta.
  rewrite store_work_queue.
  destruct (xio_timers_list_add_duration _ _ _) as [rc tl].
  cbn [fst] in Herr. subst rc. reflexivity.
Qed.

Lemma insert_deadline_in (e x : Z) (l : list (Z * Z)) :
  In (e, x) (insert_deadline e x l).
Proof.
  induction l as [| [e' x'] l IH]; cbn [insert_deadline].
  - now left.
  - destruct (x <? x'); [now left | now right].
Qed.

(** Over the deadline list: after a submit that the registry accepts, the
    entry of the handle is due at the clock plus that duration. *)
Lemma add_delayed_work_deadline
    (settime_ret d arg fn dwork : Z) (m : machine deadline_list) :
  refusing (timers_list (work_queue m)) = false ->
  In (dwork,
      clock (timers_list (work_queue m))
      + ((d mod 2 ^ 64) * 10 ^ 6) mod 2 ^ 64)
     (deadlines
        (timers_list
           (work_queue
              (snd (xio_workqueue_add_delayed_work settime_ret d arg fn
                                                   dwork m))))).
Proof.
  intros Hacc. rewrite add_delayed_work_registry.
  change (@xio_timers_list_add_duration deadline_list deadline_registry)
    with deadline_add.
  unfold deadline_add. rewrite Hacc. cbn [snd deadlines].
  apply insert_deadline_in.
Qed.


(** ** Create and its roll-back *)

Lemma remove_one_head (x : Z) (l : list Z) : remove_one x (x :: l) = l.
Proof. simpl. now rewrite Z.eqb_refl. Qed.

(** X20.  A failure of the allocation, of the timer, of the pipe or of the
    first registration: NULL comes back and the process holds what it
    held. *)
Ltac roll_back :=
  unfold create_exit2, create_exit1, create_exit, ufree, close;
  cbn [allocated open_fds ev_handlers os_calls fst snd];
  rewrite ?remove_one_head.

Lemma create_rolls_back_early_failures {R} `{TimersList R}
    (env : create_env) (ctx : Z) (os : os_state) :
  ucalloc_ret env = 0 \/ timerfd_create_ret env < 0 \/ pipe2_ret env < 0 \/
  add_timer_handler_ret env <> 0 ->
  fst (xio_workqueue_create (R := R) env ctx os) = None /\
  holds_nothing_beyond os (snd (xio_workqueue_create (R := R) env ctx os)).
Proof.
  intros Hfail. unfold xio_workqueue_create, holds_nothing_beyond.
  unfold ucalloc.
  destruct (Z.eqb_spec (ucalloc_ret env) 0) as [Hp | Hp]; [now simpl |].
  unfold timerfd_create.
  destruct (Z.ltb_spec (timerfd_create_ret env) 0) as [Ht | Ht].
  { roll_back. auto. }
  unfold pipe2.
  destruct (Z.ltb_spec (pipe2_ret env) 0) as [Hpi | Hpi].
  { roll_back. auto. }
  unfold xio_context_add_ev_handler.
  destruct (Z.eqb_spec (add_timer_handler_ret env) 0) as [Ha | Ha].
  { exfalso. destruct Hfail as [? | [? | [? | ?]]]; lia. }
  cbn [negb]. roll_back. auto.
Qed.

(** The order of the roll-back when the first registration fails: the pipe,
    then the timer, then the storage, the reverse of their acquisition. *)
Lemma create_releases_in_reverse {R} `{TimersList R}
    (env : create_env) (ctx : Z) (os : os_state) :
  ucalloc_ret env <> 0 -> 0 <= timerfd_create_ret env ->
  0 <= pipe2_ret env -> add_timer_handler_ret env <> 0 ->
  os_calls (snd (xio_workqueue_create (R := R) env ctx os)) =
    call_ufree (ucalloc_ret env)
    :: call_close (timerfd_create_ret env)
    :: call_close (snd (pipe2_fds env))
    :: call_close (fst (pipe2_fds env))
    :: call_pipe2 (fst (pipe2_fds env)) (snd (pipe2_fds env))
    :: call_timerfd_create (timerfd_create_ret env)
    :: call_ucalloc (ucalloc_ret env)
    :: os_calls os.
Proof.
  intros Hp Ht Hpi Ha. unfold xio_workqueue_create.
  unfold ucalloc, timerfd_create, pipe2, xio_context_add_ev_handler.
  destruct (Z.eqb_spec (ucalloc_ret env) 0); [contradiction |].
  destruct (Z.ltb_spec (timerfd_create_ret env) 0); [lia |].
  destruct (Z.ltb_spec (pipe2_ret env) 0); [lia |].
  destruct (Z.eqb_spec (add_timer_handler_ret env) 0); [contradiction |].
  reflexivity.
Qed.

(** C2 (the code departs from it).  When everything succeeds up to the
    registration of the pipe and that registration fails, create returns
    NULL, closes the pipe and the timer and frees its storage, and leaves
    the timer's descriptor registered with the context: no unregistration
    is among its calls. *)
Theorem create_pipe_registration_failure_leaves_timer_registered
    {R} `{TimersList R} (env : create_env) (ctx : Z) (os : os_state) :
  ucalloc_ret env <> 0 -> 0 <= timerfd_create_ret env ->
  0 <= pipe2_ret env -> add_timer_handler_ret env = 0 ->
  add_pipe_handler_ret env <> 0 ->
  let r := xio_workqueue_create (R := R) env ctx os in
  fst r = None /\
  allocated (snd r) = allocated os /\
  open_fds (snd r) = open_fds os /\
  ev_handlers (snd r) = timerfd_create_ret env :: ev_handlers os /\
  os_calls (snd r) =
    call_ufree (ucalloc_ret env)
    :: call_close (timerfd_create_ret env)
    :: call_close (snd (pipe2_fds env))
    :: call_close (fst (pipe2_fds env))
    :: call_add_ev_handler (timerfd_create_ret env)
    :: call_pipe2 (fst (pipe2_fds env)) (snd (pipe2_fds env))
    :: call_timerfd_create (timerfd_create_ret env)
    :: call_ucalloc (ucalloc_ret env)
    :: os_calls os.
Proof.
  intros Hp Ht Hpi Ha Hb r. subst r. unfold xio_workqueue_create.
  unfold ucalloc, timerfd_create, pipe2, xio_context_add_ev_handler.
  destruct (Z.eqb_spec (ucalloc_ret env) 0); [contradiction |].
  destruct (Z.ltb_spec (timerfd_create_ret env) 0); [lia |].
  destruct (Z.ltb_spec (pipe2_ret env) 0); [lia |].
  rewrite Ha.
  destruct (Z.eqb_spec (add_pipe_handler_ret env) 0); [contradiction |].
  cbn [negb Z.eqb]. roll_back. auto.
Qed.

(** Destroy, for comparison, unregisters both descriptors before it closes
    them. *)
Lemma destroy_unregisters_both {R} (disarm_ret p : Z) (m : machine R)
    (os : os_state) :
  let q := work_queue m in
  exists rest,
    os_calls (snd (xio_workqueue_destroy disarm_ret 0 0 p m os)) =
    rest ++ call_del_ev_handler (fst (pipe_fd q))
         :: call_del_ev_handler (timer_fd q) :: os_calls os.
Proof.
  intros q. unfold xio_workqueue_destroy. cbn [snd].
  assert (Hq : timer_fd (work_queue (xio_workqueue_disarm disarm_ret m))
               = timer_fd q /\
               pipe_fd (work_queue (xio_workqueue_disarm disarm_ret m))
               = pipe_fd q).
  { unfold xio_workqueue_disarm, timerfd_settime.
    repeat match goal with
           | |- context [if ?c then _ else _] => destruct c
           end; simpl; auto. }
  destruct Hq as [-> ->].
  eexists (_ :: _ :: _ :: _ :: nil). reflexivity.
Qed.

(** ** Draining the pipe *)

Lemma sys_read_would_block {R} (m : machine R) :
  pipe m = nil -> sys_read 8 m = (-1, EAGAIN, nil, m).
Proof. intros E. unfold sys_read. now rewrite E. Qed.

Lemma sys_read_token {R} (token rest : list Z) (m : machine R) :
  length token = 8%nat ->
  pipe m = token ++ rest ->
  sys_read 8 m = (8, 0, token, with_pipe rest m).
Proof.
  intros Hlen E. unfold sys_read. rewrite E.
  destruct token as [| b token]; [discriminate |].
  change ((b :: token) ++ rest) with (b :: (token ++ rest)).
  cbv iota. change (b :: (token ++ rest)) with ((b :: token) ++ rest).
  rewrite <- Hlen at 1 2 3.
  rewrite firstn_app, Nat.sub_diag, firstn_all, firstn_O, app_nil_r.
  rewrite skipn_app, Nat.sub_diag, skipn_all, skipn_O.
  rewrite Hlen. reflexivity.
Qed.

Lemma sys_read_short {R} (m : machine R) :
  pipe m <> nil -> (length (pipe m) < 8)%nat ->
  exists s, 0 <= s < 8 /\
    sys_read 8 m = (s, 0, pipe m, with_pipe nil m).
Proof.
  intros Hne Hlen. unfold sys_read.
  destruct (pipe m) as [| b l] eqn:E; [contradiction |].
  try rewrite E in Hlen.
  exists (Z.of_nat (length (b :: l))). split; [lia |].
  rewrite firstn_all2 by lia. rewrite skipn_all2 by lia. reflexivity.
Qed.

Lemma work_action_handler_token {R} `{Callbacks R}
    (fuel : nat) (work : Z) (rest : list Z) (m : machine R) :
  0 <= work < 2 ^ 64 ->
  pipe m = bytes_of_word 8 (uint64_from_ptr work) ++ rest ->
  let w := load_work (mem m) work in
  xio_work_action_handler (S fuel) m =
  if work_pending m work
  then xio_work_action_handler fuel
         (run_callback (function w) (data w)
            (store_work work
               (mk_work (function w) (data w)
                        (clr_bits XIO_WORK_PENDING (work_flags w)))
               (with_pipe rest m)))
  else xio_work_action_handler fuel (with_pipe rest m).
Proof.
  intros Hw E w. cbn [xio_work_action_handler].
  rewrite (sys_read_token _ rest m (length_bytes_of_word 8 _) E).
  cbv iota beta. change (8 <? 0) with false. change (negb (8 =? 8)) with false.
  cbv iota. rewrite token_names_handle by exact Hw.
  reflexivity.
Qed.

Lemma work_action_handler_terminates {R} `{Callbacks R} :
  (forall f d (m : machine R), pipe (run_callback f d m) = pipe m) ->
  forall (n : nat) (m : machine R),
    (length (pipe m) < 8 * (n + 1))%nat ->
    exists m', xio_work_action_handler (S n) m = Some m' /\ pipe m' = nil.
Proof.
  intros Hcb n. induction n as [| n IH]; intros m Hlen.
  - cbn [xio_work_action_handler].
    destruct (pipe m) as [| b l] eqn:E.
    + rewrite sys_read_would_block by exact E. cbn. eauto.
    + destruct (sys_read_short m) as (s & Hs & ->).
      { now rewrite E. } { rewrite ?E in *. cbn [length] in *. lia. }
      cbv iota beta.
      destruct (Z.ltb_spec s 0); [lia |].
      destruct (Z.eqb_spec s 8); [lia |]. cbn. eauto.
  - destruct (Nat.lt_ge_cases (length (pipe m)) 8) as [Hshort | Hfull].
    + cbn [xio_work_action_handler].
      destruct (pipe m) as [| b l] eqn:E.
      * rewrite sys_read_would_block by exact E. cbn. eauto.
      * destruct (sys_read_short m) as (s & Hs & ->).
        { now rewrite E. } { rewrite ?E in *. exact Hshort. }
        cbv iota beta.
        destruct (Z.ltb_spec s 0); [lia |].
        destruct (Z.eqb_spec s 8); [lia |]. cbn. eauto.
    + assert (Esplit : pipe m = firstn 8 (pipe m) ++ skipn 8 (pipe m))
        by (symmetry; apply firstn_skipn).
      assert (Hl8 : length (firstn 8 (pipe m)) = 8%nat)
        by (rewrite length_firstn; lia).
      change (xio_work_action_handler (S (S n)) m) with
        (let '(s, errno, buf, m1) := sys_read 8 m in
         if s <? 0 then
           Some (if negb (errno =? EAGAIN)
                 then ERROR_LOG "failed to read from pipe" m1 else m1)
         else if negb (s =? 8) then
           Some (ERROR_LOG "failed to read from pipe" m1)
         else
           let exp := to_int64 (word_of_bytes buf) in
           let work := ptr_from_int64 exp in
           let w := load_work (mem m1) work in
           if test_bits XIO_WORK_PENDING (work_flags w) then
             let m2 := store_work work
                         (mk_work (function w) (data w)
                            (clr_bits XIO_WORK_PENDING (work_flags w))) m1 in
             xio_work_action_handler (S n)
               (run_callback (function w) (data w) m2)
           else xio_work_action_handler (S n) m1).
      rewrite (sys_read_token _ _ m Hl8 Esplit).
      cbv iota beta zeta.
      change (8 <? 0) with false. change (negb (8 =? 8)) with false.
      cbv iota.
      assert (Hrest : (length (skipn 8 (pipe m)) < 8 * (n + 1))%nat)
        by (rewrite length_skipn; lia).
      destruct (test_bits _ _).
      * apply IH. rewrite Hcb. exact Hrest.
      * apply IH. exact Hrest.
Qed.

(** A whole run over the tokens of [works]: the handler does to them, first
    queued first, what [drain] says. *)
Lemma work_action_handler_fifo {R} `{Callbacks R} :
  (forall f d (m : machine R), pipe (run_callback f d m) = pipe m) ->
  forall (works : list Z) (m : machine R),
    Forall (fun work => 0 <= work < 2 ^ 64) works ->
    pipe m = tokens_of works ->
    xio_work_action_handler (S (length works)) m = Some (drain works m).
Proof.
  intros Hcb works. induction works as [| work rest IH]; intros m Hin E.
  - cbn [length drain xio_work_action_handler].
    now rewrite sys_read_would_block.
  - apply Forall_cons_iff in Hin as [Hw Hrest].
    cbn [tokens_of] in E. cbn [length].
    rewrite (work_action_handler_token _ work (tokens_of rest) m Hw E).
    cbn [drain]. unfold dispatch.
    change (work_pending (with_pipe (tokens_of rest) m) work)
      with (work_pending m work).
    change (mem (with_pipe (tokens_of rest) m)) with (mem m).
    destruct (work_pending m work).
    + apply IH; [exact Hrest |]. now rewrite Hcb.
    + apply IH; [exact Hrest | reflexivity].
Qed.

(** C6.  One run of the pipe's handler.  A read that would block ends the
    run with nothing changed.  A read that yields a token takes it off the
    pipe; if the item it names is Pending, the handler clears the Pending
    bit and then runs the item's callback on its argument, and if it is
    not, the handler does nothing more for that token; either way it goes
    on to the next read.  As long as callbacks do not write to the pipe the
    run ends, after at most one read per eight bytes queued and one more,
    with the pipe drained; and over the tokens of handles [works] the whole
    run treats them one by one in the order they were queued. *)
Theorem work_action_handler_drains {R} `{Callbacks R} :
  (forall (fuel : nat) (m : machine R),
     pipe m = nil -> xio_work_action_handler (S fuel) m = Some m) /\
  (forall (fuel : nat) (work : Z) (rest : list Z) (m : machine R),
     0 <= work < 2 ^ 64 ->
     pipe m = bytes_of_word 8 (uint64_from_ptr work) ++ rest ->
     let w := load_work (mem m) work in
     let cleared :=
       store_work work
         (mk_work (function w) (data w)
                  (clr_bits XIO_WORK_PENDING (work_flags w)))
         (with_pipe rest m) in
     work_pending cleared work = false /\
     xio_work_action_handler (S fuel) m =
     if work_pending m work
     then xio_work_action_handler fuel
            (run_callback (function w) (data w) cleared)
     else xio_work_action_handler fuel (with_pipe rest m)) /\
  ((forall f d (m : machine R), pipe (run_callback f d m) = pipe m) ->
   (forall m : machine R,
    exists m',
      xio_work_action_handler (S (length (pipe m) / 8)) m = Some m' /\
      pipe m' = nil) /\
   (forall (works : list Z) (m : machine R),
      Forall (fun work => 0 <= work < 2 ^ 64) works ->
      pipe m = tokens_of works ->
      xio_work_action_handler (S (length works)) m = Some (drain works m))).
Proof.
  split; [| split].
  - intros fuel m E. cbn [xio_work_action_handler].
    now rewrite sys_read_would_block.
  - intros fuel work rest m Hw E w cleared. split.
    + subst cleared. unfold work_pending. rewrite load_store_same.
      apply test_clr_bits.
    + apply work_action_handler_token; assumption.
  - intros Hcb. split; [| now apply work_action_handler_fifo].
    intros m. apply work_action_handler_terminates; [exact Hcb |].
    pose proof (Nat.div_mod_eq (length (pipe m)) 8) as D.
    pose proof (Nat.mod_upper_bound (length (pipe m)) 8) as B. lia.
Qed.

(** ** TIMER_ARMED and the timer *)

Lemma armed_consistent_frame {R} (m m' : machine R) :
  test_bits XIO_WORKQUEUE_TIMER_ARMED (flags (work_queue m')) =
  test_bits XIO_WORKQUEUE_TIMER_ARMED (flags (work_queue m)) ->
  tfd_setting (timer m') = tfd_setting (timer m) ->
  armed_consistent m -> armed_consistent m'.
Proof. unfold armed_consistent. intros -> ->. auto. Qed.

Lemma armed_consistent_rearm {R} `{TimersList R} (r : Z) (m : machine R) :
  armed_consistent m -> armed_consistent (snd (xio_workqueue_rearm r m)).
Proof.
  intros J.
  destruct (test_bits XIO_WORKQUEUE_IN_POLL (flags (work_queue m))) eqn:Hp.
  { now rewrite rearm_in_poll. }
  destruct (xio_timers_list_is_empty (timers_list (work_queue m))) eqn:He.
  { now rewrite rearm_empty. }
  destruct (Z.eq_dec
              (xio_timerlist_ns_duration_to_expire
                 (timers_list (work_queue m))) (-1)) as [Hr | Hr].
  { now rewrite rearm_no_expiry. }
  rewrite rearm_programs by assumption.
  destruct (r <? 0); cbn [snd].
  - revert J. apply armed_consistent_frame; reflexivity.
  - unfold armed_consistent. cbn.
    rewrite rearm_delay_positive. apply test_set_bits. discriminate.
Qed.

Lemma armed_consistent_disarm {R} (r : Z) (m : machine R) :
  0 <= r ->
  armed_consistent m -> armed_consistent (xio_workqueue_disarm r m).
Proof.
  intros Hr J. unfold xio_workqueue_disarm, timerfd_settime.
  destruct (test_bits XIO_WORKQUEUE_TIMER_ARMED (flags (work_queue m)));
    [| exact J].
  cbn [negb]. destruct (Z.ltb_spec r 0); [lia |].
  unfold armed_consistent. cbn. apply test_clr_bits.
Qed.

Lemma armed_consistent_api {R} `{TimersList R} (c : api_call) (m : machine R) :
  api_disarms_succeed c = true ->
  armed_consistent m -> armed_consistent (run_api_call c m).
Proof.
  intros Hok J. destruct c as [r ms d f h | r1 r2 h]; cbn [run_api_call].
  - unfold xio_workqueue_add_delayed_work. cbn zeta.
    destruct (xio_timers_list_add_duration _ _ _) as [rc tl].
    destruct (is_rc_error rc); cbn [snd].
    + revert J. apply armed_consistent_frame; reflexivity.
    + match goal with
      | |- context [xio_workqueue_rearm r ?m0] =>
          assert (J0 : armed_consistent m0)
            by (revert J; apply armed_consistent_frame; reflexivity);
          pose proof (armed_consistent_rearm r m0 J0) as J1;
          destruct (xio_workqueue_rearm r m0) as [retval m3]
      end.
      cbn [snd] in J1. destruct (negb (retval =? 0)); cbn [snd]; [| exact J1].
      revert J1. apply armed_consistent_frame; reflexivity.
  - cbn [api_disarms_succeed] in Hok. apply Z.leb_le in Hok.
    pose proof (armed_consistent_disarm r1 m Hok J) as Jd.
    unfold xio_workqueue_del_delayed_work. cbn zeta.
    destruct (xio_timers_list_del _ _) as [rc tl].
    destruct (is_rc_error rc); cbn [snd].
    + revert Jd. apply armed_consistent_frame; reflexivity.
    + match goal with
      | |- context [xio_workqueue_rearm r2 ?m0] =>
          assert (J0 : armed_consistent m0)
            by (revert Jd; apply armed_consistent_frame; reflexivity);
          pose proof (armed_consistent_rearm r2 m0 J0) as J1;
          destruct (xio_workqueue_rearm r2 m0) as [retval m4]
      end.
      cbn [snd] in J1. destruct (negb (retval =? 0)); cbn [snd]; [| exact J1].
      revert J1. apply armed_consistent_frame; reflexivity.
Qed.

Lemma armed_consistent_run_api {R} `{TimersList R}
    (cs : list api_call) (m : machine R) :
  forallb api_disarms_succeed cs = true ->
  armed_consistent m -> armed_consistent (run_api cs m).
Proof.
  revert m. induction cs as [| c cs IH]; intros m Hok J; [exact J |].
  cbn [forallb] in Hok. apply andb_true_iff in Hok as [Hc Hcs].
  unfold run_api. cbn [fold_left]. apply IH; [exact Hcs |].
  now apply armed_consistent_api.
Qed.

Lemma armed_consistent_expire {R} `{TimersList R}
    (body : Z -> Z -> list api_call) (due : list Z) (m : machine R) :
  (forall f d, forallb api_disarms_succeed (body f d) = true) ->
  armed_consistent m ->
  armed_consistent (@expire_entries R _ (scripted body) due m).
Proof.
  intros Hbody. revert m. induction due as [| e due IH]; intros m J; [exact J |].
  cbn [expire_entries].
  destruct (existsb _ _); [| now apply IH].
  apply IH. cbn [run_callback scripted].
  apply armed_consistent_run_api; [apply Hbody |].
  revert J. apply armed_consistent_frame; reflexivity.
Qed.

Lemma armed_consistent_handler {R} `{TimersList R}
    (body : Z -> Z -> list api_call) (r : Z) (m : machine R) :
  (forall f d, forallb api_disarms_succeed (body f d) = true) ->
  armed_consistent m ->
  armed_consistent (@xio_delayed_action_handler R _ (scripted body) r m).
Proof.
  intros Hbody J. unfold xio_delayed_action_handler, timerfd_read.
  destruct (0 <? tfd_expirations (timer m)); [| exact J].
  change (8 <? 0) with false. change (negb (8 =? 8)) with false. cbv iota.
  apply armed_consistent_rearm.
  match goal with
  | |- armed_consistent (with_flags _ ?m3) =>
      assert (J3 : armed_consistent m3)
  end.
  { unfold xio_timers_list_expire. apply armed_consistent_expire; [exact Hbody |].
    unfold armed_consistent in *. cbn.
    rewrite test_set_other by reflexivity. exact J. }
  unfold armed_consistent in *. cbn.
  rewrite test_clr_other by reflexivity. exact J3.
Qed.

Lemma armed_consistent_exec {R} `{TimersList R}
    (body : Z -> Z -> list api_call) (s : step R) (m : machine R) :
  (forall f d, forallb api_disarms_succeed (body f d) = true) ->
  disarms_succeed s = true ->
  armed_consistent m -> armed_consistent (exec body s m).
Proof.
  intros Hbody Hok J. destruct s; cbn [exec disarms_succeed] in *.
  - now apply armed_consistent_api.
  - now apply armed_consistent_handler.
  - now apply armed_consistent_rearm.
  - apply armed_consistent_disarm; [lia | exact J].
  - unfold timer_fires. destruct (timer_is_set (timer m)); [| exact J].
    revert J. apply armed_consistent_frame; reflexivity.
  - revert J. apply armed_consistent_frame; reflexivity.
Qed.

Lemma armed_consistent_run {R} `{TimersList R}
    (body : Z -> Z -> list api_call) (ss : list (step R)) (m : machine R) :
  (forall f d, forallb api_disarms_succeed (body f d) = true) ->
  forallb disarms_succeed ss = true ->
  armed_consistent m -> armed_consistent (run body ss m).
Proof.
  intros Hbody. revert m. induction ss as [| s ss IH]; intros m Hok J;
    [exact J |].
  cbn [forallb] in Hok. apply andb_true_iff in Hok as [Hs Hss].
  unfold run. cbn [fold_left]. apply IH; [exact Hss |].
  now apply armed_consistent_exec.
Qed.

(** C8 (as amended).  In every state a fresh queue reaches by calls of
    submit-delayed and cancel-delayed, rearm, disarm, the timer's handler
    (its callbacks calling back into the queue), the timer firing and the
    registry moving on, as long as no [timerfd_settime] of a disarm fails:
    TIMER_ARMED is set exactly when the setting last programmed into the
    timer is non-zero, that is when the timer was armed and has not been
    disarmed since, whether or not it has fired; so the timer never holds
    a live expiration with TIMER_ARMED clear. *)
Theorem timer_armed_invariant {R} `{TimersList R}
    (body : Z -> Z -> list api_call) (ss : list (step R))
    (ctx timer_fd : Z) (fds : Z * Z) :
  (forall f d, forallb api_disarms_succeed (body f d) = true) ->
  forallb disarms_succeed ss = true ->
  let m := run body ss (boot (fresh_queue ctx timer_fd fds)) in
  (test_bits XIO_WORKQUEUE_TIMER_ARMED (flags (work_queue m)) = true <->
   timespec_is_zero (it_value (tfd_setting (timer m))) = false) /\
  (timer_is_set (timer m) = true ->
   test_bits XIO_WORKQUEUE_TIMER_ARMED (flags (work_queue m)) = true).
Proof.
  intros Hbody Hok m.
  assert (J : armed_consistent m).
  { apply armed_consistent_run; [exact Hbody | exact Hok |]. reflexivity. }
  unfold armed_consistent in J. rewrite J. split.
  - apply negb_true_iff.
  - unfold timer_is_set. intros Hset. now apply andb_true_iff in Hset as [-> _].
Qed.

(** ** Registered entries and Pending items *)

Lemma linked_unlink (a e : Z) (l : list (Z * Z)) :
  linked a (unlink e l) = negb (a =? e) && linked a l.
Proof.
  unfold linked, unlink. induction l as [| [e' x'] l IH]; cbn [List.filter existsb].
  - now rewrite andb_false_r.
  - cbn [fst]. destruct (Z.eqb_spec e' e) as [-> | Hne]; cbn [negb existsb fst].
    + rewrite IH. rewrite (Z.eqb_sym e a).
      destruct (a =? e); reflexivity.
    + rewrite IH. destruct (Z.eqb_spec e' a) as [-> | Hne'].
      * destruct (Z.eqb_spec a e); [congruence | reflexivity].
      * reflexivity.
Qed.

Lemma linked_insert_deadline (a e x : Z) (l : list (Z * Z)) :
  linked a (insert_deadline e x l) = (e =? a) || linked a l.
Proof.
  unfold linked. induction l as [| [e' x'] l IH]; cbn [insert_deadline existsb fst].
  - reflexivity.
  - destruct (x <? x'); cbn [existsb fst]; [reflexivity |].
    rewrite IH. destruct (e =? a), (e' =? a); reflexivity.
Qed.

Lemma pending_store_set {R} (a h fn arg : Z) (m : machine R) :
  work_pending
    (store_work h
       (mk_work fn arg
          (set_bits XIO_WORK_PENDING (work_flags (load_work (mem m) h)))) m) a
  = (h =? a) || work_pending m a.
Proof.
  unfold work_pending. destruct (Z.eqb_spec h a) as [-> | Hne].
  - rewrite load_store_same. cbn [work_flags orb].
    apply test_set_bits, pending_nonzero.
  - now rewrite load_store_other.
Qed.

Lemma pending_store_clr {R} (a h : Z) (m : machine R) :
  let w := load_work (mem m) h in
  work_pending
    (store_work h
       (mk_work (function w) (data w)
          (clr_bits XIO_WORK_PENDING (work_flags w))) m) a
  = negb (h =? a) && work_pending m a.
Proof.
  intros w. unfold work_pending. destruct (Z.eqb_spec h a) as [-> | Hne].
  - rewrite load_store_same. cbn [work_flags negb andb]. apply test_clr_bits.
  - now rewrite load_store_other.
Qed.

(** Both invariants read only the registry and the handles. *)
Lemma registered_are_pending_frame (m m' : machine deadline_list) :
  timers_list (work_queue m') = timers_list (work_queue m) ->
  mem m' = mem m ->
  registered_are_pending m -> registered_are_pending m'.
Proof.
  unfold registered_are_pending, registered, work_pending.
  intros -> ->. auto.
Qed.

Lemma registered_iff_pending_frame (m m' : machine deadline_list) :
  timers_list (work_queue m') = timers_list (work_queue m) ->
  mem m' = mem m ->
  registered_iff_pending m -> registered_iff_pending m'.
Proof.
  unfold registered_iff_pending, registered, work_pending.
  intros -> ->. auto.
Qed.

Lemma registered_detach (a e : Z) (m : machine deadline_list) :
  registered (detach e m) a = negb (e =? a) && registered m a.
Proof.
  unfold detach, registered, deadline_del. cbn zeta.
  rewrite store_work_queue.
  destruct (linked e (deadlines (timers_list (work_queue m)))) eqn:L;
    cbn [snd with_timers_list with_queue work_queue timers_list deadlines].
  - rewrite linked_unlink. now rewrite (Z.eqb_sym a e).
  - destruct (Z.eqb_spec e a) as [<- | Hne]; [| reflexivity].
    rewrite L. reflexivity.
Qed.

Lemma pending_detach (a e : Z) (m : machine deadline_list) :
  work_pending (detach e m) a = negb (e =? a) && work_pending m a.
Proof. unfold detach. cbn zeta. now rewrite pending_store_clr. Qed.

Lemma refusing_detach (e : Z) (m : machine deadline_list) :
  refusing (timers_list (work_queue (detach e m))) =
  refusing (timers_list (work_queue m)).
Proof.
  unfold detach, deadline_del. cbn zeta. rewrite store_work_queue.
  destruct (linked e _); reflexivity.
Qed.

Lemma registered_are_pending_detach (e : Z) (m : machine deadline_list) :
  registered_are_pending m -> registered_are_pending (detach e m).
Proof.
  intros K a. rewrite registered_detach, pending_detach.
  destruct (e =? a); cbn [negb andb]; [discriminate | apply K].
Qed.

Lemma registered_iff_pending_detach (e : Z) (m : machine deadline_list) :
  registered_iff_pending m -> registered_iff_pending (detach e m).
Proof.
  intros [Hr K]. split; [now rewrite refusing_detach |].
  intros a. rewrite registered_detach, pending_detach. now rewrite K.
Qed.

Lemma add_delayed_work_view
    (r msec_duration arg fn e : Z) (m : machine deadline_list) :
  let m' :=
    snd (xio_workqueue_add_delayed_work r msec_duration arg fn e m) in
  timers_list (work_queue m') =
  timers_list (work_queue (attach msec_duration arg fn e m)) /\
  mem m' = mem (attach msec_duration arg fn e m).
Proof.
  unfold xio_workqueue_add_delayed_work, attach. cbn zeta.
  change (@xio_timers_list_add_duration deadline_list deadline_registry)
    with deadline_add.
  destruct (deadline_add _ _ _) as [rc tl]. cbn [snd].
  destruct (is_rc_error rc); cbn [snd]; [split; reflexivity |].
  match goal with
  | |- context [xio_workqueue_rearm r ?m0] =>
      destruct (rearm_frame r m0) as (Htl & Hmem & _);
      destruct (xio_workqueue_rearm r m0) as [retval m3]
  end.
  cbn [snd] in Htl, Hmem.
  destruct (negb (retval =? 0)); cbn [snd]; split; assumption.
Qed.

Lemma del_delayed_work_view (r1 r2 e : Z) (m : machine deadline_list) :
  let m' := snd (xio_workqueue_del_delayed_work r1 r2 e m) in
  timers_list (work_queue m') = timers_list (work_queue (detach e m)) /\
  mem m' = mem (detach e m).
Proof.
  unfold xio_workqueue_del_delayed_work, detach. cbn zeta.
  change (@xio_timers_list_del deadline_list deadline_registry)
    with deadline_del.
  destruct (disarm_frame r1 m) as (Htl & Hmem & _). cbn zeta in Htl, Hmem.
  rewrite !store_work_queue.
  cbn [with_timers_list with_queue work_queue mem timers_list store_work
       with_mem].
  rewrite Htl, Hmem.
  destruct (deadline_del (timers_list (work_queue m)) e) as [rc tl]. cbn [snd].
  destruct (is_rc_error rc); cbn [snd].
  { cbn [mem ERROR_LOG with_timers_list with_queue store_work with_mem
         work_queue timers_list].
    rewrite Hmem. split; reflexivity. }
  match goal with
  | |- context [xio_workqueue_rearm r2 ?m0] =>
      destruct (rearm_frame r2 m0) as (Htl' & Hmem' & _);
      destruct (xio_workqueue_rearm r2 m0) as [retval m4]
  end.
  cbn [snd] in Htl', Hmem'.
  cbn [mem ERROR_LOG with_timers_list with_queue store_work with_mem
       work_queue timers_list] in Htl', Hmem'.
  rewrite Hmem in Hmem'.
  destruct (negb (retval =? 0)); cbn [snd]; split; assumption.
Qed.

Section ViewInvariant.

(** A property of the registry and of the handles that attaching and
    detaching entries keep, and the clock too. *)
Variable P : machine deadline_list -> Prop.
Variable allowed : bool -> bool.

Hypothesis P_frame : forall m m',
  timers_list (work_queue m') = timers_list (work_queue m) ->
  mem m' = mem m -> P m -> P m'.
Hypothesis P_attach : forall ms arg fn e m, P m -> P (attach ms arg fn e m).
Hypothesis P_detach : forall e m, P m -> P (detach e m).
Hypothesis P_clock : forall dt m,
  P m -> P (with_timers_list (advance_clock dt (timers_list (work_queue m))) m).
Hypothesis P_refusing : forall b m,
  allowed b = true ->
  P m -> P (with_timers_list (set_refusing b (timers_list (work_queue m))) m).

Variable body : Z -> Z -> list api_call.

Lemma view_api (c : api_call) (m : machine deadline_list) :
  P m -> P (run_api_call c m).
Proof.
  intros HP. destruct c as [r ms d f h | r1 r2 h]; cbn [run_api_call].
  - destruct (add_delayed_work_view r ms d f h m) as (Htl & Hmem).
    eapply P_frame; [exact Htl | exact Hmem |]. now apply P_attach.
  - destruct (del_delayed_work_view r1 r2 h m) as (Htl & Hmem).
    eapply P_frame; [exact Htl | exact Hmem |]. now apply P_detach.
Qed.

Lemma view_run_api (cs : list api_call) (m : machine deadline_list) :
  P m -> P (run_api cs m).
Proof.
  revert m. induction cs as [| c cs IH]; intros m HP; [exact HP |].
  unfold run_api. cbn [fold_left]. apply IH. now apply view_api.
Qed.

Lemma view_expire (due : list Z) (m : machine deadline_list) :
  P m -> P (@expire_entries _ _ (scripted body) due m).
Proof.
  revert m. induction due as [| e due IH]; intros m HP; [exact HP |].
  cbn [expire_entries].
  destruct (existsb _ _); [| now apply IH].
  apply IH. cbn [run_callback scripted]. apply view_run_api.
  change (P (detach e m)). now apply P_detach.
Qed.

Lemma view_handler (r : Z) (m : machine deadline_list) :
  P m -> P (@xio_delayed_action_handler _ _ (scripted body) r m).
Proof.
  intros HP. unfold xio_delayed_action_handler, timerfd_read.
  destruct (0 <? tfd_expirations (timer m)); [| exact HP].
  change (8 <? 0) with false. change (negb (8 =? 8)) with false. cbv iota.
  match goal with
  | |- P (snd (xio_workqueue_rearm r ?m4)) =>
      destruct (rearm_frame r m4) as (Htl & Hmem & _);
      eapply P_frame; [exact Htl | exact Hmem |]
  end.
  match goal with
  | |- P (with_flags _ ?m3) =>
      apply (P_frame m3); [reflexivity | reflexivity |]
  end.
  unfold xio_timers_list_expire. apply view_expire.
  eapply P_frame; [| | exact HP]; reflexivity.
Qed.

Lemma view_event (e : delayed_event) (m : machine deadline_list) :
  event_allowed allowed e = true ->
  P m -> P (exec body (step_of_event e) m).
Proof.
  intros Hok HP.
  destruct e; cbn [step_of_event exec event_allowed] in *.
  - now apply view_api.
  - now apply view_api.
  - unfold timer_fires. destruct (timer_is_set _); [| exact HP].
    eapply P_frame; [| | exact HP]; reflexivity.
  - now apply view_handler.
  - now apply P_clock.
  - now apply P_refusing.
Qed.

Lemma view_run (evs : list delayed_event) (m : machine deadline_list) :
  forallb (event_allowed allowed) evs = true ->
  P m -> P (run body (map step_of_event evs) m).
Proof.
  revert m. induction evs as [| e evs IH]; intros m Hok HP; [exact HP |].
  cbn [forallb] in Hok. apply andb_true_iff in Hok as [He Hevs].
  unfold run. cbn [map fold_left]. apply IH; [exact Hevs |].
  now apply view_event.
Qed.

End ViewInvariant.

Lemma registered_attach (ms arg fn e a : Z) (m : machine deadline_list) :
  registered (attach ms arg fn e m) a =
  if refusing (timers_list (work_queue m)) then registered m a
  else (e =? a) || registered m a.
Proof.
  unfold attach, registered, deadline_add. cbn zeta.
  rewrite store_work_queue.
  destruct (refusing (timers_list (work_queue m)));
    cbn [snd with_timers_list with_queue work_queue timers_list deadlines].
  - reflexivity.
  - rewrite linked_insert_deadline, linked_unlink. rewrite (Z.eqb_sym a e).
    destruct (e =? a); reflexivity.
Qed.

Lemma pending_attach (ms arg fn e a : Z) (m : machine deadline_list) :
  work_pending (attach ms arg fn e m) a = (e =? a) || work_pending m a.
Proof. unfold attach. cbn zeta. apply pending_store_set. Qed.

Lemma refusing_attach (ms arg fn e : Z) (m : machine deadline_list) :
  refusing (timers_list (work_queue (attach ms arg fn e m))) =
  refusing (timers_list (work_queue m)).
Proof.
  unfold attach, deadline_add. cbn zeta. rewrite store_work_queue.
  destruct (refusing (timers_list (work_queue m))) eqn:E; cbn; now rewrite ?E.
Qed.

Lemma registered_are_pending_run
    (body : Z -> Z -> list api_call) (evs : list delayed_event)
    (m : machine deadline_list) :
  registered_are_pending m ->
  registered_are_pending (run body (map step_of_event evs) m).
Proof.
  apply (view_run registered_are_pending (fun _ => true)).
  - apply registered_are_pending_frame.
  - intros ms arg fn e m0 K a. rewrite registered_attach, pending_attach.
    destruct (refusing _), (e =? a); cbn [orb]; auto.
  - apply registered_are_pending_detach.
  - intros dt m0 K. exact K.
  - intros b m0 _ K. exact K.
  - clear. induction evs as [| e evs IH]; [reflexivity |].
    cbn [forallb]. rewrite IH. now destruct e.
Qed.

Lemma registered_iff_pending_run
    (body : Z -> Z -> list api_call) (evs : list delayed_event)
    (m : machine deadline_list) :
  forallb never_refusing evs = true ->
  registered_iff_pending m ->
  registered_iff_pending (run body (map step_of_event evs) m).
Proof.
  apply (view_run registered_iff_pending negb).
  - apply registered_iff_pending_frame.
  - intros ms arg fn e m0 [Hr K]. split; [now rewrite refusing_attach |].
    intros a. rewrite registered_attach, pending_attach, Hr. now rewrite K.
  - apply registered_iff_pending_detach.
  - intros dt m0 K. exact K.
  - intros b m0 Hb [Hr K]. split; [| exact K].
    cbn. now destruct b.
Qed.

(** C7 (as amended).  In every state a fresh queue reaches by calls of
    submit-delayed and cancel-delayed (error branches included), the timer
    firing, the timer's handler expiring due entries (its callbacks calling
    back into the queue) and the clock advancing: every item with an entry
    in the registry is Pending; and as long as the registry refuses no
    insertion, an item is Pending exactly when it has an entry in the
    registry. *)
Theorem delayed_registration_invariant
    (body : Z -> Z -> list api_call) (evs : list delayed_event)
    (ctx timer_fd : Z) (fds : Z * Z) :
  let m := run body (map step_of_event evs)
               (boot (fresh_queue ctx timer_fd fds)) in
  (forall dwork, registered m dwork = true -> work_pending m dwork = true) /\
  (forallb never_refusing evs = true ->
   forall dwork, registered m dwork = true <-> work_pending m dwork = true).
Proof.
  intros m. split.
  - apply registered_are_pending_run. intros a. discriminate.
  - intros Hok a.
    destruct (registered_iff_pending_run body evs
                (boot (fresh_queue ctx timer_fd fds)) Hok) as [_ K].
    { split; [reflexivity |]. intros b. reflexivity. }
    fold m in K. now rewrite K.
Qed.

(** * Further properties of the code *)

(** ** Normalising, in full *)




(** X2.  Whenever rearm changes the timer, what it programs is a setting the
    kernel accepts and that arms: no interval, [0 <= tv_nsec < 10^9],
    [0 <= tv_sec], not the zero value, and for a 64-bit count of
    nanoseconds at most 9223372036 seconds. *)
Theorem rearm_programs_valid_setting {R} `{TimersList R}
    (settime_ret : Z) (m : machine R) :
  let m' := snd (xio_workqueue_rearm settime_ret m) in
  let r := xio_timerlist_ns_duration_to_expire (timers_list (work_queue m)) in
  let new_t := tfd_setting (timer m') in
  timer m' = timer m \/
  (it_interval new_t = zero_timespec /\
   0 <= tv_nsec (it_value new_t) < 1000000000 /\
   0 <= tv_sec (it_value new_t) /\
   timespec_is_zero (it_value new_t) = false /\
   (r < 2 ^ 63 -> tv_sec (it_value new_t) <= 9223372036)).
Proof.
  intros m' r new_t. subst m' new_t.
  destruct (test_bits XIO_WORKQUEUE_IN_POLL (flags (work_queue m))) eqn:Hp.
  { left. now rewrite rearm_in_poll. }
  destruct (xio_timers_list_is_empty (timers_list (work_queue m))) eqn:He.
  { left. now rewrite rearm_empty. }
  destruct (Z.eq_dec r (-1)) as [Hr | Hr].
  { left. now rewrite rearm_no_expiry. }
  rewrite rearm_programs by assumption. fold r.
  destruct (settime_ret <? 0); [now left | right].
  cbn [snd with_flags with_queue with_timer timer tfd_setting it_interval
       it_value].
  split; [reflexivity |].
  split; [| split; [| split; [apply rearm_delay_positive |]]];
    unfold rearm_delay; destruct (Z.ltb_spec r 1); cbn [tv_sec tv_nsec];
      try lia.
  - apply Z.mod_pos_bound. lia.
  - apply Z.div_pos; lia.
  - intros Hr64. apply Z.lt_succ_r. apply Z.div_lt_upper_bound; lia.
Qed.

(** ** Create and destroy *)

Lemma disarm_queue_fds {R} (settime_ret : Z) (m : machine R) :
  timer_fd (work_queue (xio_workqueue_disarm settime_ret m))
  = timer_fd (work_queue m) /\
  pipe_fd (work_queue (xio_workqueue_disarm settime_ret m))
  = pipe_fd (work_queue m).
Proof.
  unfold xio_workqueue_disarm, timerfd_settime.
  repeat match goal with
         | |- context [if ?c then _ else _] => destruct c
         end; simpl; auto.
Qed.

Lemma create_success {R} `{TimersList R}
    (env : create_env) (ctx : Z) (os : os_state) :
  create_succeeds env = true ->
  xio_workqueue_create (R := R) env ctx os =
  (Some (fresh_queue ctx (timerfd_create_ret env) (pipe2_fds env)),
   mk_os (ucalloc_ret env :: allocated os)
         (fst (pipe2_fds env) :: snd (pipe2_fds env)
          :: timerfd_create_ret env :: open_fds os)
         (fst (pipe2_fds env) :: timerfd_create_ret env :: ev_handlers os)
         (call_add_ev_handler (fst (pipe2_fds env))
          :: call_add_ev_handler (timerfd_create_ret env)
          :: call_pipe2 (fst (pipe2_fds env)) (snd (pipe2_fds env))
          :: call_timerfd_create (timerfd_create_ret env)
          :: call_ucalloc (ucalloc_ret env) :: os_calls os)).
Proof.
  unfold create_succeeds. intros Hok.
  apply andb_true_iff in Hok as [Hok Hb].
  apply andb_true_iff in Hok as [Hok Ha].
  apply andb_true_iff in Hok as [Hok Hpi].
  apply andb_true_iff in Hok as [Hp Ht].
  apply negb_true_iff in Hp. apply Z.leb_le in Ht, Hpi.
  unfold xio_workqueue_create.
  unfold ucalloc, timerfd_create, pipe2, xio_context_add_ev_handler.
  rewrite Hp, Ha, Hb.
  destruct (Z.ltb_spec (timerfd_create_ret env) 0); [lia |].
  destruct (Z.ltb_spec (pipe2_ret env) 0); [lia |].
  reflexivity.
Qed.

Lemma create_failure {R} `{TimersList R}
    (env : create_env) (ctx : Z) (os : os_state) :
  create_succeeds env = false ->
  fst (xio_workqueue_create (R := R) env ctx os) = None.
Proof.
  unfold create_succeeds, xio_workqueue_create. intros Hko.
  destruct (ucalloc_ret env =? 0); [reflexivity |].
  destruct (Z.ltb_spec (timerfd_create_ret env) 0); [reflexivity |].
  destruct (Z.ltb_spec (pipe2_ret env) 0); [reflexivity |].
  destruct (add_timer_handler_ret env =? 0); [| reflexivity].
  destruct (add_pipe_handler_ret env =? 0); [| reflexivity].
  exfalso. cbn in Hko.
  destruct (Z.leb_spec 0 (timerfd_create_ret env)); [| lia].
  destruct (Z.leb_spec 0 (pipe2_ret env)); [| lia].
  discriminate.
Qed.

(** X3.  Create returns a queue exactly when the allocation, the timer, the
    pipe and both registrations succeed; the queue then has no flag set and
    an initialised registry, and the process holds, beyond what it held,
    the queue's storage, its three descriptors and the registrations of the
    timer and of the pipe's read end. *)
Theorem create_returns_queue_iff_all_succeed {R} `{TimersList R}
    (env : create_env) (ctx : Z) (os : os_state) :
  let r := xio_workqueue_create (R := R) env ctx os in
  (fst r <> None <-> create_succeeds env = true) /\
  (create_succeeds env = true ->
   fst r = Some (mk_workqueue ctx xio_timers_list_init
                              (timerfd_create_ret env) (pipe2_fds env) 0) /\
   allocated (snd r) = ucalloc_ret env :: allocated os /\
   open_fds (snd r) =
     fst (pipe2_fds env) :: snd (pipe2_fds env) :: timerfd_create_ret env
     :: open_fds os /\
   ev_handlers (snd r) =
     fst (pipe2_fds env) :: timerfd_create_ret env :: ev_handlers os).
Proof.
  intros r. subst r. split.
  - destruct (create_succeeds env) eqn:E.
    + rewrite create_success by exact E. cbn [fst]. split; [reflexivity |].
      discriminate.
    + rewrite create_failure by exact E. split; [congruence | discriminate].
  - intros E. rewrite create_success by exact E. cbn [fst snd].
    repeat split.
Qed.

Lemma destroy_result {R}
    (disarm_ret del_timer_ret del_pipe_ret p : Z)
    (m : machine R) (os : os_state) :
  let q := work_queue m in
  let '(retval, _, os') :=
    xio_workqueue_destroy disarm_ret del_timer_ret del_pipe_ret p m os in
  retval = del_pipe_ret /\
  allocated os' = remove_one p (allocated os) /\
  open_fds os' =
    remove_one (timer_fd q)
      (remove_one (snd (pipe_fd q))
         (remove_one (fst (pipe_fd q)) (open_fds os))) /\
  ev_handlers os' =
    ev_handlers
      (xio_context_del_ev_handler del_pipe_ret (fst (pipe_fd q))
         (xio_context_del_ev_handler del_timer_ret (timer_fd q) os)).
Proof.
  intros q. unfold xio_workqueue_destroy.
  destruct (disarm_queue_fds disarm_ret m) as [-> ->]. fold q.
  unfold xio_context_del_ev_handler.
  destruct (negb (del_timer_ret =? 0)), (negb (del_pipe_ret =? 0));
    cbn; repeat split.
Qed.

(** X4.  Destroy undoes a successful create: when both unregistrations are
    accepted it returns 0 and the process holds again exactly the storage,
    the descriptors and the registrations it held before the create,
    whatever the disarming of the timer answered. *)
Theorem destroy_undoes_create {R} `{TimersList R}
    (env : create_env) (ctx disarm_ret : Z) (m : machine R) (os : os_state) :
  create_succeeds env = true ->
  timer_fd (work_queue m) = timerfd_create_ret env ->
  pipe_fd (work_queue m) = pipe2_fds env ->
  let os1 := snd (xio_workqueue_create (R := R) env ctx os) in
  let r := xio_workqueue_destroy disarm_ret 0 0 (ucalloc_ret env) m os1 in
  fst (fst r) = 0 /\ holds_nothing_beyond os (snd r).
Proof.
  intros Hok Htfd Hfds os1 r. subst r os1.
  rewrite create_success by exact Hok. cbn [snd].
  match goal with
  | |- context [xio_workqueue_destroy ?a ?b ?c ?d ?e ?f] =>
      pose proof (destroy_result a b c d e f) as D;
      destruct (xio_workqueue_destroy a b c d e f) as [[retval m'] os']
  end.
  cbn zeta in D. destruct D as (Hret & Hall & Hopen & Hev).
  rewrite Htfd, Hfds in *. cbn [fst snd].
  split; [exact Hret |]. unfold holds_nothing_beyond.
  cbn [allocated open_fds] in Hall, Hopen.
  rewrite remove_one_head in Hall. rewrite !remove_one_head in Hopen.
  split; [exact Hall |]. split; [exact Hopen |].
  rewrite Hev. unfold xio_context_del_ev_handler.
  cbn [negb Z.eqb ev_handlers remove_one].
  destruct (Z.eqb_spec (timerfd_create_ret env) (fst (pipe2_fds env)))
    as [E | E].
  - cbn [remove_one]. rewrite <- E at 1. now rewrite Z.eqb_refl.
  - rewrite Z.eqb_refl. cbn [remove_one]. now rewrite Z.eqb_refl.
Qed.

(** X5.  Destroy never stops early and reports only its last step: whatever
    the timer and the two unregistrations answer, it closes the three
    descriptors and frees the storage, and it returns the answer of the
    pipe's unregistration; so when only the timer's unregistration fails,
    the failure is logged, 0 is returned, and the context's registrations
    lose the pipe's read end only. *)
Theorem destroy_cleans_up_and_returns_last_status {R}
    (disarm_ret del_timer_ret del_pipe_ret p : Z)
    (m : machine R) (os : os_state) :
  let q := work_queue m in
  let r :=
    xio_workqueue_destroy disarm_ret del_timer_ret del_pipe_ret p m os in
  fst (fst r) = del_pipe_ret /\
  allocated (snd r) = remove_one p (allocated os) /\
  open_fds (snd r) =
    remove_one (timer_fd q)
      (remove_one (snd (pipe_fd q))
         (remove_one (fst (pipe_fd q)) (open_fds os))) /\
  (del_timer_ret <> 0 -> del_pipe_ret = 0 ->
   fst (fst r) = 0 /\
   ev_handlers (snd r) = remove_one (fst (pipe_fd q)) (ev_handlers os) /\
   In "ev_loop_del_cb failed"%string (errlog (snd (fst r)))).
Proof.
  intros q r. subst r.
  pose proof (destroy_result disarm_ret del_timer_ret del_pipe_ret p m os)
    as D.
  unfold xio_workqueue_destroy in *. cbn zeta in *.
  destruct D as (Hret & Hall & Hopen & Hev). cbn [fst snd].
  split; [reflexivity |]. split; [exact Hall |]. split; [exact Hopen |].
  intros Ht Hp. subst del_pipe_ret. split; [reflexivity |].
  split.
  - rewrite Hev. unfold xio_context_del_ev_handler.
    destruct (Z.eqb_spec del_timer_ret 0); [contradiction |]. reflexivity.
  - destruct (Z.eqb_spec del_timer_ret 0); [contradiction |].
    cbn. now left.
Qed.

(** ** The timer's handler *)

Lemma rearm_keeps_in_poll {R} `{TimersList R} (r : Z) (m : machine R) :
  test_bits XIO_WORKQUEUE_IN_POLL
    (flags (work_queue (snd (xio_workqueue_rearm r m)))) =
  test_bits XIO_WORKQUEUE_IN_POLL (flags (work_queue m)).
Proof.
  unfold xio_workqueue_rearm, timerfd_settime.
  repeat match goal with
         | |- context [if ?c then _ else _] => destruct c eqn:?
         end;
    cbn [snd with_flags with_queue with_timer work_queue flags ERROR_LOG];
    rewrite ?test_set_other by reflexivity; congruence.
Qed.

Lemma rearm_outside_pass {R} `{TimersList R} (r : Z) (m : machine R) :
  test_bits XIO_WORKQUEUE_IN_POLL (flags (work_queue m)) = false ->
  0 <= r ->
  let m' := snd (xio_workqueue_rearm r m) in
  let tl := timers_list (work_queue m) in
  xio_timers_list_is_empty tl = false ->
  xio_timerlist_ns_duration_to_expire tl <> -1 ->
  fst (xio_workqueue_rearm r m) = 0 /\
  timer m' = programmed_for (xio_timerlist_ns_duration_to_expire tl) /\
  test_bits XIO_WORKQUEUE_TIMER_ARMED (flags (work_queue m')) = true.
Proof.
  intros Hp Hr m' tl He Hns. subst m'.
  rewrite rearm_programs by assumption.
  destruct (Z.ltb_spec r 0); [lia |]. cbn [fst snd].
  split; [reflexivity |]. split; [reflexivity |].
  cbn. apply test_set_bits. discriminate.
Qed.

Lemma handler_without_expiration
    {R} `{TimersList R} `{Callbacks R} (settime_ret : Z) (m : machine R) :
  nothing_to_read m -> xio_delayed_action_handler settime_ret m = m.
Proof.
  unfold nothing_to_read. intros Hnone.
  unfold xio_delayed_action_handler, timerfd_read.
  destruct (Z.ltb_spec 0 (tfd_expirations (timer m))); [lia | reflexivity].
Qed.

(** X6.  A wakeup of the timer's handler with no expiration to read is
    spurious: the handler leaves the whole machine as it was, expires
    nothing, runs no callback, logs nothing and does not touch the
    timer. *)
Theorem delayed_action_handler_spurious_wakeup
    {R} `{TimersList R} `{Callbacks R} (settime_ret : Z) (m : machine R) :
  tfd_expirations (timer m) <= 0 ->
  xio_delayed_action_handler settime_ret m = m.
Proof.
  intros Hnone. now apply handler_without_expiration.
Qed.

(** X7.  After a pass of the timer's handler on a real expiration, the
    queue is out of the pass (IN_POLL clear); and if the kernel accepts the
    setting and the registry, as the callbacks left it, still has a next
    expiry, the timer is programmed for exactly that expiry and TIMER_ARMED
    is set. *)
Theorem delayed_action_handler_rearms_for_next
    {R} `{TimersList R} `{Callbacks R} (settime_ret : Z) (m : machine R) :
  0 < tfd_expirations (timer m) ->
  let m' := xio_delayed_action_handler settime_ret m in
  let tl := timers_list (work_queue m') in
  test_bits XIO_WORKQUEUE_IN_POLL (flags (work_queue m')) = false /\
  (0 <= settime_ret ->
   xio_timers_list_is_empty tl = false ->
   xio_timerlist_ns_duration_to_expire tl <> -1 ->
   timer m' = programmed_for (xio_timerlist_ns_duration_to_expire tl) /\
   test_bits XIO_WORKQUEUE_TIMER_ARMED (flags (work_queue m')) = true).
Proof.
  intros Hexp m' tl. subst tl m'.
  unfold xio_delayed_action_handler, timerfd_read.
  destruct (Z.ltb_spec 0 (tfd_expirations (timer m))); [| lia].
  change (8 <? 0) with false. change (negb (8 =? 8)) with false. cbv iota.
  match goal with
  | |- context [xio_workqueue_rearm settime_ret ?m4] => set (m4' := m4)
  end.
  assert (Hp : test_bits XIO_WORKQUEUE_IN_POLL (flags (work_queue m4'))
               = false) by apply test_clr_bits.
  split; [now rewrite rearm_keeps_in_poll |].
  destruct (rearm_frame settime_ret m4') as (Htl & _). cbn zeta in Htl.
  rewrite Htl. intros Hok He Hns.
  destruct (rearm_outside_pass settime_ret m4' Hp Hok He Hns) as (_ & Ht & Hf).
  split; assumption.
Qed.

Lemma nothing_to_read_rearm {R} `{TimersList R} (r : Z) (m : machine R) :
  nothing_to_read m -> nothing_to_read (snd (xio_workqueue_rearm r m)).
Proof.
  unfold nothing_to_read, xio_workqueue_rearm, timerfd_settime.
  repeat match goal with
         | |- context [if ?c then _ else _] => destruct c
         end; cbn; auto; lia.
Qed.

Lemma nothing_to_read_disarm {R} (r : Z) (m : machine R) :
  nothing_to_read m -> nothing_to_read (xio_workqueue_disarm r m).
Proof.
  unfold nothing_to_read, xio_workqueue_disarm, timerfd_settime.
  repeat match goal with
         | |- context [if ?c then _ else _] => destruct c
         end; cbn; auto; lia.
Qed.

Lemma nothing_to_read_frame {R} (m m' : machine R) :
  timer m' = timer m -> nothing_to_read m -> nothing_to_read m'.
Proof. unfold nothing_to_read. now intros ->. Qed.

Lemma nothing_to_read_api {R} `{TimersList R} (c : api_call) (m : machine R) :
  nothing_to_read m -> nothing_to_read (run_api_call c m).
Proof.
  intros N. destruct c as [r ms d f h | r1 r2 h]; cbn [run_api_call].
  - unfold xio_workqueue_add_delayed_work. cbn zeta.
    destruct (xio_timers_list_add_duration _ _ _) as [rc tl].
    destruct (is_rc_error rc); cbn [snd].
    + revert N. apply nothing_to_read_frame. reflexivity.
    + match goal with
      | |- context [xio_workqueue_rearm r ?m0] =>
          assert (N0 : nothing_to_read m0)
            by (revert N; apply nothing_to_read_frame; reflexivity);
          pose proof (nothing_to_read_rearm r m0 N0) as N1;
          destruct (xio_workqueue_rearm r m0) as [retval m3]
      end.
      cbn [snd] in N1. destruct (negb (retval =? 0)); cbn [snd]; [| exact N1].
      revert N1. apply nothing_to_read_frame. reflexivity.
  - pose proof (nothing_to_read_disarm r1 m N) as Nd.
    unfold xio_workqueue_del_delayed_work. cbn zeta.
    destruct (xio_timers_list_del _ _) as [rc tl].
    destruct (is_rc_error rc); cbn [snd].
    + revert Nd. apply nothing_to_read_frame. reflexivity.
    + match goal with
      | |- context [xio_workqueue_rearm r2 ?m0] =>
          assert (N0 : nothing_to_read m0)
            by (revert Nd; apply nothing_to_read_frame; reflexivity);
          pose proof (nothing_to_read_rearm r2 m0 N0) as N1;
          destruct (xio_workqueue_rearm r2 m0) as [retval m4]
      end.
      cbn [snd] in N1. destruct (negb (retval =? 0)); cbn [snd]; [| exact N1].
      revert N1. apply nothing_to_read_frame. reflexivity.
Qed.

Lemma nothing_to_read_expire {R} `{TimersList R}
    (body : Z -> Z -> list api_call) (due : list Z) (m : machine R) :
  nothing_to_read m ->
  nothing_to_read (@expire_entries R _ (scripted body) due m).
Proof.
  revert m. induction due as [| e due IH]; intros m N; [exact N |].
  cbn [expire_entries].
  destruct (existsb _ _); [| now apply IH].
  apply IH. cbn [run_callback scripted]. unfold run_api.
  match goal with
  | |- nothing_to_read (fold_left _ _ ?m0) =>
      assert (N0 : nothing_to_read m0)
        by (revert N; apply nothing_to_read_frame; reflexivity);
      generalize dependent m0
  end.
  induction (body _ _) as [| c cs IHc]; intros m0 N0; [exact N0 |].
  cbn [fold_left]. apply IHc. now apply nothing_to_read_api.
Qed.

(** X8.  The timer's handler consumes the expiration it is woken for: with
    callbacks that act through submit-delayed and cancel-delayed, a second
    run of the handler right after a first, the timer not having fired
    again, changes nothing. *)
Theorem delayed_action_handler_consumes_expiration {R} `{TimersList R}
    (body : Z -> Z -> list api_call) (r1 r2 : Z) (m : machine R) :
  let m' := @xio_delayed_action_handler R _ (scripted body) r1 m in
  @xio_delayed_action_handler R _ (scripted body) r2 m' = m'.
Proof.
  intros m'. apply handler_without_expiration. unfold nothing_to_read.
  subst m'. unfold xio_delayed_action_handler, timerfd_read.
  destruct (Z.ltb_spec 0 (tfd_expirations (timer m))) as [Hexp | Hnone];
    [| exact Hnone].
  change (8 <? 0) with false. change (negb (8 =? 8)) with false. cbv iota.
  apply nothing_to_read_rearm.
  match goal with
  | |- nothing_to_read (with_flags _ ?m3) =>
      apply (nothing_to_read_frame m3); [reflexivity |]
  end.
  unfold xio_timers_list_expire. apply nothing_to_read_expire.
  unfold nothing_to_read. cbn. lia.
Qed.

(** ** The flags word over a run *)

Ltac flag_cases :=
  repeat match goal with
         | |- context [if ?c then _ else _] => destruct c
         end; cbn; auto.

Lemma pass_flags_rearm {R} `{TimersList R} (b : bool) (r : Z) (m : machine R) :
  pass_flags b (flags (work_queue m)) ->
  pass_flags b (flags (work_queue (snd (xio_workqueue_rearm r m)))).
Proof.
  destruct m as [[c tl tfd pfd f] t p h l]. cbn [work_queue flags].
  unfold xio_workqueue_rearm, timerfd_settime. cbn [work_queue flags].
  destruct b; intros [-> | ->]; cbn [test_bits]; flag_cases.
Qed.

Lemma pass_flags_disarm {R} (b : bool) (r : Z) (m : machine R) :
  pass_flags b (flags (work_queue m)) ->
  pass_flags b (flags (work_queue (xio_workqueue_disarm r m))).
Proof.
  destruct m as [[c tl tfd pfd f] t p h l]. cbn [work_queue flags].
  unfold xio_workqueue_disarm, timerfd_settime. cbn [work_queue flags].
  destruct b; intros [-> | ->]; cbn [test_bits]; flag_cases.
Qed.

Lemma pass_flags_frame {R} (b : bool) (m m' : machine R) :
  flags (work_queue m') = flags (work_queue m) ->
  pass_flags b (flags (work_queue m)) ->
  pass_flags b (flags (work_queue m')).
Proof. now intros ->. Qed.

Lemma pass_flags_api {R} `{TimersList R}
    (b : bool) (c : api_call) (m : machine R) :
  pass_flags b (flags (work_queue m)) ->
  pass_flags b (flags (work_queue (run_api_call c m))).
Proof.
  intros N. destruct c as [r ms d f h | r1 r2 h]; cbn [run_api_call].
  - unfold xio_workqueue_add_delayed_work. cbn zeta.
    destruct (xio_timers_list_add_duration _ _ _) as [rc tl].
    destruct (is_rc_error rc); cbn [snd].
    + revert N. apply pass_flags_frame. reflexivity.
    + match goal with
      | |- context [xio_workqueue_rearm r ?m0] =>
          assert (N0 : pass_flags b (flags (work_queue m0)))
            by (revert N; apply pass_flags_frame; reflexivity);
          pose proof (pass_flags_rearm b r m0 N0) as N1;
          destruct (xio_workqueue_rearm r m0) as [retval m3]
      end.
      cbn [snd] in N1. destruct (negb (retval =? 0)); cbn [snd]; exact N1.
  - pose proof (pass_flags_disarm b r1 m N) as Nd.
    unfold xio_workqueue_del_delayed_work. cbn zeta.
    destruct (xio_timers_list_del _ _) as [rc tl].
    destruct (is_rc_error rc); cbn [snd].
    + revert Nd. apply pass_flags_frame. reflexivity.
    + match goal with
      | |- context [xio_workqueue_rearm r2 ?m0] =>
          assert (N0 : pass_flags b (flags (work_queue m0)))
            by (revert Nd; apply pass_flags_frame; reflexivity);
          pose proof (pass_flags_rearm b r2 m0 N0) as N1;
          destruct (xio_workqueue_rearm r2 m0) as [retval m4]
      end.
      cbn [snd] in N1. destruct (negb (retval =? 0)); cbn [snd]; exact N1.
Qed.

Lemma pass_flags_expire {R} `{TimersList R}
    (body : Z -> Z -> list api_call) (b : bool) (due : list Z)
    (m : machine R) :
  pass_flags b (flags (work_queue m)) ->
  pass_flags b
    (flags (work_queue (@expire_entries R _ (scripted body) due m))).
Proof.
  revert m. induction due as [| e due IH]; intros m N; [exact N |].
  cbn [expire_entries].
  destruct (existsb _ _); [| now apply IH].
  apply IH. cbn [run_callback scripted]. unfold run_api.
  match goal with
  | |- pass_flags b (flags (work_queue (fold_left _ _ ?m0))) =>
      assert (N0 : pass_flags b (flags (work_queue m0)))
        by (revert N; apply pass_flags_frame; reflexivity);
      generalize dependent m0
  end.
  induction (body _ _) as [| c cs IHc]; intros m0 N0; [exact N0 |].
  cbn [fold_left]. apply IHc. now apply pass_flags_api.
Qed.

Lemma pass_flags_handler {R} `{TimersList R}
    (body : Z -> Z -> list api_call) (r : Z) (m : machine R) :
  pass_flags false (flags (work_queue m)) ->
  pass_flags false
    (flags (work_queue (@xio_delayed_action_handler R _ (scripted body) r m))).
Proof.
  intros N. unfold xio_delayed_action_handler, timerfd_read.
  destruct (0 <? tfd_expirations (timer m)); [| exact N].
  change (8 <? 0) with false. change (negb (8 =? 8)) with false. cbv iota.
  apply pass_flags_rearm.
  match goal with
  | |- pass_flags false (flags (work_queue (with_flags _ ?m3))) =>
      assert (N3 : pass_flags true (flags (work_queue m3)));
      [| change (pass_flags false
                   (clr_bits XIO_WORKQUEUE_IN_POLL (flags (work_queue m3))));
         destruct N3 as [E | E]; rewrite E; [now left | now right]]
  end.
  unfold xio_timers_list_expire. apply pass_flags_expire.
  change (pass_flags true
            (set_bits XIO_WORKQUEUE_IN_POLL (flags (work_queue m)))).
  destruct N as [E | E]; rewrite E; [now left | now right].
Qed.

(** X9.  Between the steps of any run from a fresh queue (submits and
    cancels of delayed work, rearm, disarm, the timer's handler with
    callbacks that call back into the queue, the timer firing, failing
    system calls included) the flags word is either 0 or TIMER_ARMED: the
    handler never leaves IN_POLL set behind and no other bit is ever
    written. *)
Theorem queue_flags_between_steps {R} `{TimersList R}
    (body : Z -> Z -> list api_call) (ss : list (step R))
    (ctx timer_fd : Z) (fds : Z * Z) :
  let m := run body ss (boot (fresh_queue ctx timer_fd fds)) in
  flags (work_queue m) = 0 \/
  flags (work_queue m) = XIO_WORKQUEUE_TIMER_ARMED.
Proof.
  intros m. change (pass_flags false (flags (work_queue m))). subst m.
  assert (N : pass_flags false
                (flags (work_queue (boot (R := R)
                                      (fresh_queue ctx timer_fd fds)))))
    by now left.
  revert N. generalize (boot (R := R) (fresh_queue ctx timer_fd fds)).
  induction ss as [| s ss IH]; intros m N; [exact N |].
  unfold run. cbn [fold_left]. apply IH.
  destruct s; cbn [exec].
  - now apply pass_flags_api.
  - now apply pass_flags_handler.
  - now apply pass_flags_rearm.
  - now apply pass_flags_disarm.
  - unfold timer_fires. destruct (timer_is_set _); exact N.
  - exact N.
Qed.

(** ** Delayed work and the timer *)

Lemma not_error (rc : timers_list_rc) :
  rc <> TIMERS_LIST_RC_ERROR -> is_rc_error rc = false.
Proof. destruct rc; [reflexivity .. | contradiction]. Qed.

Lemma disarm_cases {R} (settime_ret : Z) (m : machine R) :
  0 <= settime_ret ->
  xio_workqueue_disarm settime_ret m =
  if test_bits XIO_WORKQUEUE_TIMER_ARMED (flags (work_queue m))
  then with_flags (clr_bits XIO_WORKQUEUE_TIMER_ARMED (flags (work_queue m)))
         (with_timer (mk_timerfd zero_itimerspec false 0) m)
  else m.
Proof.
  intros Hok. unfold xio_workqueue_disarm, timerfd_settime.
  destruct (test_bits _ _); [| reflexivity]. cbn [negb].
  destruct (Z.ltb_spec settime_ret 0); [lia | reflexivity].
Qed.

Lemma add_delayed_work_cases {R} `{TimersList R}
    (settime_ret msec_duration arg fn dwork : Z) (m : machine R) :
  let added :=
    xio_timers_list_add_duration (timers_list (work_queue m))
      (to_uint64 (to_uint64 msec_duration * 1000000)) dwork in
  let m2 :=
    with_timers_list (snd added)
      (store_work dwork
         (mk_work fn arg
            (set_bits XIO_WORK_PENDING
               (work_flags (load_work (mem m) dwork)))) m) in
  let rearmed := xio_workqueue_rearm settime_ret m2 in
  xio_workqueue_add_delayed_work settime_ret msec_duration arg fn dwork m =
  if is_rc_error (fst added)
  then (-1, ERROR_LOG "adding to timer failed" m2)
  else if negb (fst rearmed =? 0)
       then (fst rearmed, ERROR_LOG "xio_workqueue_rearm failed" (snd rearmed))
       else rearmed.
Proof.
  intros added m2 rearmed. subst rearmed m2 added.
  unfold xio_workqueue_add_delayed_work. cbn zeta.
  rewrite store_work_queue.
  destruct (xio_timers_list_add_duration _ _ _) as [rc tl]. cbn [fst snd].
  destruct (is_rc_error rc); [reflexivity |].
  destruct (xio_workqueue_rearm _ _) as [retval m3]. cbn [fst snd].
  reflexivity.
Qed.

Lemma del_delayed_work_cases {R} `{TimersList R}
    (disarm_ret rearm_ret dwork : Z) (m : machine R) :
  let m1 := xio_workqueue_disarm disarm_ret m in
  let w := load_work (mem m) dwork in
  let deleted := xio_timers_list_del (timers_list (work_queue m)) dwork in
  let m3 :=
    with_timers_list (snd deleted)
      (store_work dwork
         (mk_work (function w) (data w)
                  (clr_bits XIO_WORK_PENDING (work_flags w))) m1) in
  let rearmed := xio_workqueue_rearm rearm_ret m3 in
  xio_workqueue_del_delayed_work disarm_ret rearm_ret dwork m =
  if is_rc_error (fst deleted)
  then (0, ERROR_LOG "deleting work from queue failed. queue is empty" m3)
  else if negb (fst rearmed =? 0)
       then (fst rearmed, ERROR_LOG "xio_workqueue_rearm failed" (snd rearmed))
       else rearmed.
Proof.
  intros m1 w deleted m3 rearmed. subst rearmed m3 deleted w m1.
  unfold xio_workqueue_del_delayed_work. cbn zeta.
  rewrite store_work_queue.
  destruct (disarm_frame disarm_ret m) as (Htl & Hmem & _).
  cbn zeta in Htl, Hmem. rewrite Htl, Hmem.
  destruct (xio_timers_list_del _ _) as [rc tl]. cbn [fst snd].
  destruct (is_rc_error rc); [reflexivity |].
  destruct (xio_workqueue_rearm _ _) as [retval m4]. cbn [fst snd].
  reflexivity.
Qed.

(** X10.  A submit of delayed work outside an expiry pass that the registry
    and the kernel accept returns 0 with the timer programmed for the
    registry's next expiry as it is after the insertion, TIMER_ARMED set,
    and the item Pending with its callback and argument stored. *)
Theorem add_delayed_work_arms_for_next {R} `{TimersList R}
    (settime_ret msec_duration arg fn dwork : Z) (m : machine R) :
  let added :=
    xio_timers_list_add_duration (timers_list (work_queue m))
      (to_uint64 (to_uint64 msec_duration * 1000000)) dwork in
  let r :=
    xio_workqueue_add_delayed_work settime_ret msec_duration arg fn dwork m in
  test_bits XIO_WORKQUEUE_IN_POLL (flags (work_queue m)) = false ->
  fst added <> TIMERS_LIST_RC_ERROR ->
  xio_timers_list_is_empty (snd added) = false ->
  xio_timerlist_ns_duration_to_expire (snd added) <> -1 ->
  0 <= settime_ret ->
  fst r = 0 /\
  timer (snd r) =
    programmed_for (xio_timerlist_ns_duration_to_expire (snd added)) /\
  test_bits XIO_WORKQUEUE_TIMER_ARMED (flags (work_queue (snd r))) = true /\
  work_pending (snd r) dwork = true /\
  function (load_work (mem (snd r)) dwork) = fn /\
  data (load_work (mem (snd r)) dwork) = arg.
Proof.
  intros added r Hp Hrc He Hns Hok. subst r.
  rewrite add_delayed_work_cases. fold added.
  rewrite (not_error _ Hrc).
  match goal with
  | |- context [xio_workqueue_rearm settime_ret ?m2] =>
      destruct (rearm_outside_pass settime_ret m2 Hp Hok He Hns)
        as (Hret & Htimer & Hflag);
      destruct (rearm_frame settime_ret m2) as (_ & Hmem & _);
      destruct (xio_workqueue_rearm settime_ret m2) as [retval m3]
  end.
  cbn [fst snd] in *. subst retval. cbn [Z.eqb negb fst snd].
  split; [reflexivity |]. split; [exact Htimer |]. split; [exact Hflag |].
  unfold work_pending. rewrite Hmem.
  cbn [with_timers_list with_queue mem].
  rewrite load_store_same. cbn [work_flags function data].
  split; [apply test_set_bits, pending_nonzero |]. split; reflexivity.
Qed.

(** X11.  When the registry accepts the entry and the kernel then refuses
    the rearm, submit-delayed returns -1 with the entry still in the
    registry and the item Pending, the timer and the flags as they were:
    the deadline is registered but nothing was programmed for it. *)
Theorem add_delayed_work_rearm_failure_keeps_entry {R} `{TimersList R}
    (settime_ret msec_duration arg fn dwork : Z) (m : machine R) :
  let added :=
    xio_timers_list_add_duration (timers_list (work_queue m))
      (to_uint64 (to_uint64 msec_duration * 1000000)) dwork in
  let r :=
    xio_workqueue_add_delayed_work settime_ret msec_duration arg fn dwork m in
  test_bits XIO_WORKQUEUE_IN_POLL (flags (work_queue m)) = false ->
  fst added <> TIMERS_LIST_RC_ERROR ->
  xio_timers_list_is_empty (snd added) = false ->
  xio_timerlist_ns_duration_to_expire (snd added) <> -1 ->
  settime_ret < 0 ->
  fst r = -1 /\
  timers_list (work_queue (snd r)) = snd added /\
  work_pending (snd r) dwork = true /\
  timer (snd r) = timer m /\
  flags (work_queue (snd r)) = flags (work_queue m).
Proof.
  intros added r Hp Hrc He Hns Hko. subst r.
  rewrite add_delayed_work_cases. fold added.
  rewrite (not_error _ Hrc).
  match goal with
  | |- context [xio_workqueue_rearm settime_ret ?m2] =>
      rewrite (rearm_programs settime_ret m2 Hp He Hns)
  end.
  destruct (Z.ltb_spec settime_ret 0); [| lia]. cbn [fst snd Z.eqb negb].
  split; [reflexivity |]. split; [reflexivity |].
  split; [| split; reflexivity].
  unfold work_pending. cbn [ERROR_LOG with_timers_list with_queue mem].
  rewrite load_store_same. apply test_set_bits, pending_nonzero.
Qed.

(** X21.  When the registry's insert answers TIMERS_LIST_RC_ERROR,
    submit-delayed returns -1 without going on to the rearm: timer and
    flags are as they were and the registry is as the failed insert left
    it, while the item has already been marked Pending with the new
    callback stored. *)
Theorem add_delayed_work_insert_failure {R} `{TimersList R}
    (settime_ret msec_duration arg fn dwork : Z) (m : machine R) :
  let added :=
    xio_timers_list_add_duration (timers_list (work_queue m))
      (to_uint64 (to_uint64 msec_duration * 1000000)) dwork in
  let r :=
    xio_workqueue_add_delayed_work settime_ret msec_duration arg fn dwork m in
  fst added = TIMERS_LIST_RC_ERROR ->
  fst r = -1 /\
  timers_list (work_queue (snd r)) = snd added /\
  timer (snd r) = timer m /\
  flags (work_queue (snd r)) = flags (work_queue m) /\
  work_pending (snd r) dwork = true /\
  function (load_work (mem (snd r)) dwork) = fn.
Proof.
  intros added r Herr. subst r.
  rewrite add_delayed_work_cases. fold added. rewrite Herr.
  cbn [is_rc_error fst snd].
  split; [reflexivity |]. split; [reflexivity |].
  split; [reflexivity |]. split; [reflexivity |].
  unfold work_pending. cbn [ERROR_LOG with_timers_list with_queue mem].
  rewrite load_store_same. cbn [work_flags function].
  split; [apply test_set_bits, pending_nonzero | reflexivity].
Qed.

(** X12.  Inside an expiry pass (IN_POLL set, as when a callback of the
    pass submits) submit-delayed registers the entry, marks the item
    Pending and returns 0 without calling the kernel: timer and flags stay
    as they were, whatever the kernel would have answered. *)
Theorem add_delayed_work_in_pass_leaves_timer {R} `{TimersList R}
    (settime_ret msec_duration arg fn dwork : Z) (m : machine R) :
  let added :=
    xio_timers_list_add_duration (timers_list (work_queue m))
      (to_uint64 (to_uint64 msec_duration * 1000000)) dwork in
  let r :=
    xio_workqueue_add_delayed_work settime_ret msec_duration arg fn dwork m in
  test_bits XIO_WORKQUEUE_IN_POLL (flags (work_queue m)) = true ->
  fst added <> TIMERS_LIST_RC_ERROR ->
  fst r = 0 /\
  timers_list (work_queue (snd r)) = snd added /\
  work_pending (snd r) dwork = true /\
  timer (snd r) = timer m /\
  flags (work_queue (snd r)) = flags (work_queue m) /\
  errlog (snd r) = errlog m.
Proof.
  intros added r Hp Hrc. subst r.
  rewrite add_delayed_work_cases. fold added.
  rewrite (not_error _ Hrc).
  match goal with
  | |- context [xio_workqueue_rearm settime_ret ?m2] =>
      rewrite (rearm_in_poll settime_ret m2 Hp)
  end.
  cbn [fst snd Z.eqb negb].
  split; [reflexivity |]. split; [reflexivity |].
  split; [| repeat split].
  unfold work_pending. cbn [with_timers_list with_queue mem].
  rewrite load_store_same. apply test_set_bits, pending_nonzero.
Qed.

(** X13.  A cancel of delayed work outside an expiry pass that the registry
    and the kernel accept returns 0 with the item Idle and the timer
    following what is left: programmed for the next expiry, with
    TIMER_ARMED set, if the registry still has one, and otherwise
    TIMER_ARMED clear with the timer disarmed if it was marked armed. *)
Theorem del_delayed_work_reprograms_or_disarms {R} `{TimersList R}
    (disarm_ret rearm_ret dwork : Z) (m : machine R) :
  let deleted := xio_timers_list_del (timers_list (work_queue m)) dwork in
  let r := xio_workqueue_del_delayed_work disarm_ret rearm_ret dwork m in
  let ns := xio_timerlist_ns_duration_to_expire (snd deleted) in
  test_bits XIO_WORKQUEUE_IN_POLL (flags (work_queue m)) = false ->
  fst deleted <> TIMERS_LIST_RC_ERROR ->
  0 <= disarm_ret -> 0 <= rearm_ret ->
  fst r = 0 /\
  work_pending (snd r) dwork = false /\
  timers_list (work_queue (snd r)) = snd deleted /\
  (xio_timers_list_is_empty (snd deleted) = false -> ns <> -1 ->
   timer (snd r) = programmed_for ns /\
   test_bits XIO_WORKQUEUE_TIMER_ARMED (flags (work_queue (snd r))) = true)
  /\
  (xio_timers_list_is_empty (snd deleted) = true \/ ns = -1 ->
   test_bits XIO_WORKQUEUE_TIMER_ARMED (flags (work_queue (snd r))) = false /\
   timer (snd r) =
     if test_bits XIO_WORKQUEUE_TIMER_ARMED (flags (work_queue m))
     then mk_timerfd zero_itimerspec false 0 else timer m).
Proof.
  intros deleted r ns Hp Hrc Hd Hr. subst r.
  rewrite del_delayed_work_cases. fold deleted.
  rewrite (not_error _ Hrc).
  set (m1 := xio_workqueue_disarm disarm_ret m).
  match goal with
  | |- context [xio_workqueue_rearm rearm_ret ?m0] => set (m3 := m0)
  end.
  assert (Hp1 : test_bits XIO_WORKQUEUE_IN_POLL (flags (work_queue m1))
                = false).
  { subst m1. rewrite disarm_cases by exact Hd.
    destruct (test_bits XIO_WORKQUEUE_TIMER_ARMED _); [| exact Hp].
    cbn [with_flags with_queue work_queue flags].
    rewrite test_clr_other by reflexivity. exact Hp. }
  assert (Ha1 : test_bits XIO_WORKQUEUE_TIMER_ARMED (flags (work_queue m1))
                = false /\
                timer m1 =
                if test_bits XIO_WORKQUEUE_TIMER_ARMED (flags (work_queue m))
                then mk_timerfd zero_itimerspec false 0 else timer m).
  { subst m1. rewrite disarm_cases by exact Hd.
    destruct (test_bits XIO_WORKQUEUE_TIMER_ARMED (flags (work_queue m)))
      eqn:Ha; [| now split].
    cbn [with_flags with_queue work_queue flags timer with_timer].
    split; [apply test_clr_bits | reflexivity]. }
  assert (Hpend : work_pending m3 dwork = false).
  { subst m3. unfold work_pending. cbn [with_timers_list with_queue mem].
    rewrite load_store_same. apply test_clr_bits. }
  destruct (rearm_frame rearm_ret m3) as (Htl & Hmem & _). cbn zeta in Htl, Hmem.
  assert (Hrest : fst (xio_workqueue_rearm rearm_ret m3) = 0 /\
                  (xio_timers_list_is_empty (snd deleted) = false ->
                   ns <> -1 ->
                   timer (snd (xio_workqueue_rearm rearm_ret m3))
                     = programmed_for ns /\
                   test_bits XIO_WORKQUEUE_TIMER_ARMED
                     (flags (work_queue (snd (xio_workqueue_rearm rearm_ret m3))))
                     = true) /\
                  (xio_timers_list_is_empty (snd deleted) = true \/ ns = -1 ->
                   xio_workqueue_rearm rearm_ret m3 = (0, m3))).
  { destruct (xio_timers_list_is_empty (snd deleted)) eqn:He.
    - rewrite (rearm_empty rearm_ret m3 He).
      split; [reflexivity |]. split; [discriminate | reflexivity].
    - destruct (Z.eq_dec ns (-1)) as [Hns | Hns].
      + rewrite (rearm_no_expiry rearm_ret m3 Hns).
        split; [reflexivity |]. split; [contradiction | reflexivity].
      + destruct (rearm_outside_pass rearm_ret m3 Hp1 Hr He Hns)
          as (Hret & Ht & Hf).
        split; [exact Hret |]. split; [now split |].
        intros [? | ?]; [discriminate | contradiction]. }
  destruct Hrest as (Hret & Hnext & Hnone).
  rewrite Hret. cbn [Z.eqb negb].
  split; [exact Hret |].
  split; [unfold work_pending in *; now rewrite Hmem |].
  split; [rewrite Htl; reflexivity |].
  split; [exact Hnext |].
  intros Hgone. rewrite (Hnone Hgone). cbn [snd]. exact Ha1.
Qed.

(** X14.  When the registry's delete answers TIMERS_LIST_RC_ERROR the
    rearm is skipped: with TIMER_ARMED set and the disarming accepted,
    cancel-delayed leaves the timer disarmed and TIMER_ARMED clear
    whatever the registry still holds, so entries that remain registered
    have no timer programmed for them until a later rearm. *)
Theorem del_delayed_work_error_leaves_timer_disarmed {R} `{TimersList R}
    (disarm_ret rearm_ret dwork : Z) (m : machine R) :
  let deleted := xio_timers_list_del (timers_list (work_queue m)) dwork in
  let r := xio_workqueue_del_delayed_work disarm_ret rearm_ret dwork m in
  fst deleted = TIMERS_LIST_RC_ERROR ->
  test_bits XIO_WORKQUEUE_TIMER_ARMED (flags (work_queue m)) = true ->
  0 <= disarm_ret ->
  timer (snd r) = mk_timerfd zero_itimerspec false 0 /\
  timer_is_set (timer (snd r)) = false /\
  test_bits XIO_WORKQUEUE_TIMER_ARMED (flags (work_queue (snd r))) = false /\
  timers_list (work_queue (snd r)) = snd deleted.
Proof.
  intros deleted r Herr Ha Hd. subst r.
  rewrite del_delayed_work_cases. fold deleted. rewrite Herr.
  cbn [is_rc_error snd]. rewrite disarm_cases by exact Hd. rewrite Ha.
  cbn [ERROR_LOG with_timers_list with_queue store_work with_mem with_flags
       with_timer timer work_queue flags timers_list].
  split; [reflexivity |]. split; [reflexivity |].
  split; [apply test_clr_bits | reflexivity].
Qed.

(** ** Immediate work from submit to dispatch *)

Lemma store_store {R} (a : Z) (w1 w2 : xio_work_handle) (m : machine R) :
  store_work a w2 (store_work a w1 m) = store_work a w2 m.
Proof.
  unfold store_work, with_mem. cbn [mem work_queue timer pipe errlog].
  now rewrite insert_insert_eq.
Qed.

Lemma store_over_pipes {R} (a : Z) (w1 w2 : xio_work_handle)
    (p p' : list Z) (m : machine R) :
  store_work a w2 (with_pipe p (with_pipe p' (store_work a w1 m))) =
  with_pipe p (store_work a w2 m).
Proof.
  unfold store_work, with_mem, with_pipe.
  cbn [mem work_queue timer pipe errlog]. now rewrite insert_insert_eq.
Qed.

Lemma store_over_pipe {R} (a : Z) (w1 w2 : xio_work_handle)
    (p : list Z) (m : machine R) :
  store_work a w2 (with_pipe p (store_work a w1 m)) =
  with_pipe p (store_work a w2 m).
Proof.
  unfold store_work, with_mem, with_pipe.
  cbn [mem work_queue timer pipe errlog]. now rewrite insert_insert_eq.
Qed.

Lemma with_pipe_store {R} (a : Z) (w : xio_work_handle) (m : machine R) :
  with_pipe (pipe m) (store_work a w m) = store_work a w m.
Proof. now destruct m. Qed.

Lemma set_bits_twice (mask f : Z) :
  set_bits mask (set_bits mask f) = set_bits mask f.
Proof. unfold set_bits. now rewrite <- Z.lor_assoc, Z.lor_diag. Qed.

(** The machine after an add-work whose write went through. *)
Lemma add_work_written {R} (arg fn work : Z) (m : machine R) :
  xio_workqueue_add_work 8 arg fn work m =
  (0, with_pipe (pipe m ++ bytes_of_word 8 (uint64_from_ptr work))
        (store_work work
           (mk_work fn arg
              (set_bits XIO_WORK_PENDING
                 (work_flags (load_work (mem m) work)))) m)).
Proof. reflexivity. Qed.

Lemma work_action_handler_skips {R} `{Callbacks R}
    (work : Z) (m : machine R) :
  0 <= work < 2 ^ 64 ->
  pipe m = bytes_of_word 8 (uint64_from_ptr work) ->
  work_pending m work = false ->
  xio_work_action_handler 2 m = Some (with_pipe nil m).
Proof.
  intros Hw E Hidle.
  rewrite (work_action_handler_token 1 work nil m Hw)
    by (now rewrite app_nil_r).
  rewrite Hidle. cbn [xio_work_action_handler].
  now rewrite sys_read_would_block.
Qed.

(** X15.  Submit then dispatch: after an add-work on an empty pipe whose
    write goes through, one run of the pipe's handler runs the stored
    callback on the stored argument exactly once, on a machine where the
    item is already Idle and the pipe drained, and then ends (callbacks
    not writing to the pipe). *)
Theorem add_work_then_handler_runs_callback {R} `{Callbacks R}
    (arg fn work : Z) (m : machine R) :
  pipe m = nil ->
  0 <= work < 2 ^ 64 ->
  (forall f d (m0 : machine R), pipe (run_callback f d m0) = pipe m0) ->
  let queued := snd (xio_workqueue_add_work 8 arg fn work m) in
  let idle :=
    store_work work
      (mk_work fn arg
         (clr_bits XIO_WORK_PENDING
            (set_bits XIO_WORK_PENDING
               (work_flags (load_work (mem m) work))))) m in
  work_pending idle work = false /\
  xio_work_action_handler 2 queued = Some (run_callback fn arg idle).
Proof.
  intros Hempty Hw Hcb queued idle. split.
  { subst idle. unfold work_pending. rewrite load_store_same.
    apply test_clr_bits. }
  subst queued. rewrite add_work_written. cbn [snd]. rewrite Hempty.
  cbn [app].
  match goal with
  | |- xio_work_action_handler 2 ?q = _ =>
      rewrite (work_action_handler_token 1 work nil q Hw)
        by (now rewrite app_nil_r)
  end.
  unfold work_pending. cbn [with_pipe mem]. rewrite load_store_same.
  cbn [work_flags function data].
  rewrite (test_set_bits _ _ pending_nonzero).
  rewrite store_over_pipes. rewrite <- Hempty, with_pipe_store. fold idle.
  cbn [xio_work_action_handler].
  rewrite sys_read_would_block; [reflexivity |].
  rewrite Hcb. subst idle. exact Hempty.
Qed.

(** X16.  Submit, cancel, dispatch: a del-work between the add-work and the
    run of the handler returns 0, and the handler then takes the token off
    the pipe and runs no callback at all, whatever the callbacks are: the
    machine ends as it was before the submit but for the handle, which holds
    the callback and is Idle. *)
Theorem add_work_del_work_then_handler_skips {R} `{Callbacks R}
    (arg fn work : Z) (m : machine R) :
  pipe m = nil ->
  0 <= work < 2 ^ 64 ->
  let queued := snd (xio_workqueue_add_work 8 arg fn work m) in
  let cancelled := xio_workqueue_del_work work queued in
  fst cancelled = 0 /\
  xio_work_action_handler 2 (snd cancelled) =
  Some (store_work work
          (mk_work fn arg
             (clr_bits XIO_WORK_PENDING
                (set_bits XIO_WORK_PENDING
                   (work_flags (load_work (mem m) work))))) m).
Proof.
  intros Hempty Hw queued cancelled. subst cancelled queued.
  rewrite add_work_written. cbn [snd]. rewrite Hempty. cbn [app].
  unfold xio_workqueue_del_work. cbn [with_pipe mem].
  rewrite load_store_same. cbn [work_flags function data].
  rewrite (test_set_bits _ _ pending_nonzero). cbn [fst snd].
  split; [reflexivity |].
  match goal with
  | |- xio_work_action_handler 2 ?c = _ =>
      rewrite (work_action_handler_skips work c Hw)
  end.
  - f_equal. rewrite store_over_pipe.
    change (with_pipe nil (with_pipe ?p ?m0)) with (with_pipe nil m0).
    now rewrite <- Hempty, with_pipe_store.
  - reflexivity.
  - unfold work_pending. rewrite load_store_same. apply test_clr_bits.
Qed.

(** X17.  Submitting a handle that is already queued overwrites its
    callback and queues a second token, but the handler dispatches the item
    once: the callback of the second submit runs, on the first token, and
    the second token is skipped; the callback of the first submit never
    runs (callbacks neither writing to the pipe nor re-submitting the
    handle). *)
Theorem add_work_twice_dispatches_once {R} `{Callbacks R}
    (arg1 fn1 arg2 fn2 work : Z) (m : machine R) :
  pipe m = nil ->
  0 <= work < 2 ^ 64 ->
  (forall f d (m0 : machine R),
     pipe (run_callback f d m0) = pipe m0 /\
     work_pending (run_callback f d m0) work = work_pending m0 work) ->
  let token := bytes_of_word 8 (uint64_from_ptr work) in
  let once := snd (xio_workqueue_add_work 8 arg1 fn1 work m) in
  let twice := snd (xio_workqueue_add_work 8 arg2 fn2 work once) in
  let idle :=
    with_pipe token
      (store_work work
         (mk_work fn2 arg2
            (clr_bits XIO_WORK_PENDING
               (set_bits XIO_WORK_PENDING
                  (work_flags (load_work (mem m) work))))) m) in
  pipe twice = token ++ token /\
  xio_work_action_handler 3 twice =
  Some (with_pipe nil (run_callback fn2 arg2 idle)).
Proof.
  intros Hempty Hw Hcb token once twice idle.
  assert (Etwice : twice =
            with_pipe (token ++ token)
              (store_work work
                 (mk_work fn2 arg2
                    (set_bits XIO_WORK_PENDING
                       (work_flags (load_work (mem m) work)))) m)).
  { subst twice once. rewrite !add_work_written. cbn [snd].
    rewrite Hempty. cbn [app with_pipe pipe mem].
    rewrite load_store_same. cbn [work_flags]. rewrite set_bits_twice.
    rewrite store_over_pipe. reflexivity. }
  split; [now rewrite Etwice |].
  rewrite (work_action_handler_token 2 work token twice Hw)
    by now rewrite Etwice.
  rewrite Etwice. unfold work_pending at 1. cbn [with_pipe mem].
  rewrite load_store_same. cbn [work_flags function data].
  rewrite (test_set_bits _ _ pending_nonzero).
  change (with_pipe token (with_pipe (token ++ token) ?m0))
    with (with_pipe token m0).
  change (store_work work ?w (with_pipe token ?m0))
    with (with_pipe token (store_work work w m0)).
  rewrite store_store. fold idle.
  destruct (Hcb fn2 arg2 idle) as (Hpipe & Hpend).
  assert (Hidle : work_pending idle work = false).
  { subst idle. unfold work_pending. cbn [with_pipe mem].
    rewrite load_store_same. apply test_clr_bits. }
  apply (work_action_handler_skips work); [exact Hw | | congruence].
  rewrite Hpipe. reflexivity.
Qed.

(** X18.  A read that yields fewer than eight bytes ends the handler's run:
    the bytes are taken off the pipe and dropped, the failure is logged, no
    handle is touched and no callback runs. *)
Theorem work_action_handler_short_read {R} `{Callbacks R}
    (fuel : nat) (m : machine R) :
  pipe m <> nil -> (length (pipe m) < 8)%nat ->
  xio_work_action_handler (S fuel) m =
  Some (ERROR_LOG "failed to read from pipe" (with_pipe nil m)).
Proof.
  intros Hne Hlen. cbn [xio_work_action_handler].
  destruct (sys_read_short m Hne Hlen) as (s & Hs & ->).
  cbv iota beta.
  destruct (Z.ltb_spec s 0); [lia |].
  destruct (Z.eqb_spec s 8); [lia | reflexivity].
Qed.

(** X19.  A del-work right after an add-work returns 0 whether or not the
    write into the pipe went through, because the add-work marks the item
    Pending before it writes; and a second del-work returns -1. *)
Theorem del_work_after_add_work {R}
    (write_ret arg fn work : Z) (m : machine R) :
  let submitted := snd (xio_workqueue_add_work write_ret arg fn work m) in
  let cancelled := xio_workqueue_del_work work submitted in
  fst cancelled = 0 /\
  work_pending (snd cancelled) work = false /\
  xio_workqueue_del_work work (snd cancelled) = (-1, snd cancelled).
Proof.
  intros submitted cancelled.
  assert (Hp : work_pending submitted work = true).
  { subst submitted. unfold xio_workqueue_add_work, sys_write, work_pending.
    destruct (write_ret <? 0); [| destruct (negb (write_ret =? 8))];
      cbn [snd ERROR_LOG with_pipe mem]; rewrite load_store_same;
      apply test_set_bits, pending_nonzero. }
  assert (Ec : cancelled =
            (0, store_work work
                  (mk_work (function (load_work (mem submitted) work))
                     (data (load_work (mem submitted) work))
                     (clr_bits XIO_WORK_PENDING
                        (work_flags (load_work (mem submitted) work))))
                  submitted)).
  { subst cancelled. unfold xio_workqueue_del_work.
    unfold work_pending in Hp. now rewrite Hp. }
  rewrite Ec. cbn [fst snd]. split; [reflexivity |].
  split.
  - unfold work_pending. rewrite load_store_same. apply test_clr_bits.
  - unfold xio_workqueue_del_work. rewrite load_store_same.
    cbn [work_flags]. now rewrite test_clr_bits.
Qed.

(** * The claims at sample states *)



Lemma disarm_protocol_witness :
  test_bits XIO_WORKQUEUE_TIMER_ARMED (flags (work_queue sample_armed)) = true /\
  test_bits XIO_WORKQUEUE_TIMER_ARMED
    (flags (work_queue (xio_workqueue_disarm 0 sample_armed))) = false /\
  timer (xio_workqueue_disarm 0 sample_armed) =
    mk_timerfd zero_itimerspec false 0 /\
  timer (xio_workqueue_disarm (-1) sample_armed) = timer sample_armed /\
  test_bits XIO_WORKQUEUE_TIMER_ARMED
    (flags (work_queue (xio_workqueue_disarm (-1) sample_armed))) = false /\
  xio_workqueue_disarm 0 (boot sample_queue) = boot sample_queue /\
  xio_workqueue_rearm 0 (boot sample_queue) = (0, boot sample_queue).
Proof.
  split; [reflexivity |].
  destruct (disarm_protocol 0 sample_armed) as (_ & Harmed & _).
  destruct Harmed as (Hclear & Hzero & _); [reflexivity |].
  destruct (disarm_protocol (-1) sample_armed) as (_ & Harmed' & _).
  destruct Harmed' as (Hclear' & _ & Hkept); [reflexivity |].
  destruct (disarm_protocol 0 (boot sample_queue)) as (Hidle & _ & Hempty).
  split; [exact Hclear |].
  split; [rewrite Hzero by lia; reflexivity |].
  split; [rewrite Hkept by lia; reflexivity |].
  split; [exact Hclear' |].
  split; [apply Hidle; reflexivity | apply Hempty; reflexivity].
Defined.

Lemma add_work_outcomes_witness :
  fst (xio_workqueue_add_work 8 8 7 1000 (boot sample_queue)) = 0 /\
  pipe sample_queued = 232 :: 3 :: 0 :: 0 :: 0 :: 0 :: 0 :: 0 :: nil /\
  ptr_from_int64
    (to_int64 (word_of_bytes (bytes_of_word 8 (uint64_from_ptr 1000)))) = 1000
  /\
  fst (xio_workqueue_add_work (-1) 8 7 1000 (boot sample_queue)) = -1 /\
  fst (xio_workqueue_add_work 3 8 7 1000 (boot sample_queue)) = -1.
Proof.
  destruct (add_work_outcomes 8 8 7 1000 (boot sample_queue))
    as (_ & _ & _ & Hfull).
  destruct Hfull as (Hret & Hpipe & _ & Hname); [reflexivity |].
  destruct (add_work_outcomes (-1) 8 7 1000 (boot sample_queue))
    as (_ & Hblock & _).
  destruct Hblock as (Hret1 & _); [lia |].
  destruct (add_work_outcomes 3 8 7 1000 (boot sample_queue))
    as (_ & _ & Hshort & _).
  destruct Hshort as (Hret2 & _); [lia |].
  split; [exact Hret |]. split; [exact Hpipe |].
  split; [apply Hname; lia |].
  split; [exact Hret1 | exact Hret2].
Defined.

Lemma del_work_outcomes_witness :
  work_pending sample_queued 1000 = true /\
  fst (xio_workqueue_del_work 1000 sample_queued) = 0 /\
  work_pending (snd (xio_workqueue_del_work 1000 sample_queued)) 1000 = false /\
  xio_workqueue_del_work 1000 (boot sample_queue) = (-1, boot sample_queue).
Proof.
  split; [reflexivity |].
  destruct (del_work_outcomes 1000 sample_queued) as (Hpending & _).
  destruct Hpending as (Hret & Hidle & _); [reflexivity |].
  destruct (del_work_outcomes 1000 (boot sample_queue)) as (_ & Hnot).
  split; [exact Hret |]. split; [exact Hidle |]. apply Hnot. reflexivity.
Defined.

Lemma work_action_handler_drains_witness :
  @xio_work_action_handler _ (scripted quiet) 1 (boot sample_queue)
    = Some (boot sample_queue) /\
  @xio_work_action_handler _ (scripted quiet) 2 sample_queued
    = @xio_work_action_handler _ (scripted quiet) 1
        (store_work 1000 (mk_work 7 8 0) (with_pipe nil sample_queued)) /\
  (exists m',
     @xio_work_action_handler _ (scripted quiet) 2 sample_queued = Some m' /\
     pipe m' = nil) /\
  @xio_work_action_handler _ (scripted quiet) 2 sample_queued
    = Some (@drain _ (scripted quiet) (1000 :: nil) sample_queued).
Proof.
  destruct (@work_action_handler_drains deadline_list (scripted quiet))
    as (Hblock & Htoken & Hruns).
  destruct (Hruns (fun f d m => eq_refl)) as (Hends & Hfifo).
  split; [apply Hblock; reflexivity |].
  split.
  { destruct (Htoken 1%nat 1000 nil sample_queued) as (_ & Hstep);
      [lia | reflexivity |].
    exact Hstep. }
  split; [apply (Hends sample_queued) |].
  apply (Hfifo (1000 :: nil) sample_queued); [| reflexivity].
  constructor; [lia | constructor].
Defined.

Lemma del_delayed_work_unknown_entry_witness :
  fst (xio_timers_list_del (timers_list (work_queue (boot sample_queue))) 1000)
    = TIMERS_LIST_RC_ERROR /\
  fst (xio_workqueue_del_delayed_work 0 0 1000 (boot sample_queue)) = 0.
Proof.
  split; [reflexivity |].
  apply (del_delayed_work_unknown_entry_returns_success
           0 0 1000 (boot sample_queue)).
  reflexivity.
Defined.

Lemma create_pipe_registration_failure_witness :
  fst (xio_workqueue_create (R := deadline_list) sample_env 1 sample_os) = None
  /\ ev_handlers
       (snd (xio_workqueue_create (R := deadline_list) sample_env 1 sample_os))
     = 3 :: nil.
Proof.
  destruct (create_pipe_registration_failure_leaves_timer_registered
              (R := deadline_list) sample_env 1 sample_os)
    as (Hnull & _ & _ & Hreg & _);
    [discriminate | cbn; lia | cbn; lia | reflexivity | discriminate |].
  split; [exact Hnull | exact Hreg].
Defined.


(** C7 as first stated fails: when the registry refuses the insertion,
    submit-delayed returns -1 and leaves the item Pending with no entry
    registered. *)
Lemma delayed_registration_counterexample :
  let m0 := run quiet (map step_of_event (ev_refusing true :: nil))
                (boot sample_queue) in
  let m := run quiet (map step_of_event sample_refused) (boot sample_queue) in
  fst (xio_workqueue_add_delayed_work 0 10 8 7 1000 m0) = -1 /\
  work_pending m 1000 = true /\ registered m 1000 = false.
Proof. cbv zeta. repeat split; reflexivity. Qed.

Lemma delayed_registration_invariant_witness :
  let m := run quiet (map step_of_event sample_expiry) (boot sample_queue) in
  let m1 := run quiet (map step_of_event sample_submit) (boot sample_queue) in
  forallb never_refusing sample_expiry = true /\
  (registered m 1000 = true <-> work_pending m 1000 = true) /\
  registered m1 1000 = true /\ work_pending m1 1000 = true.
Proof.
  intros m m1. split; [reflexivity |].
  destruct (delayed_registration_invariant quiet sample_expiry 1 3 (4, 5))
    as (_ & Hiff).
  destruct (delayed_registration_invariant quiet sample_submit 1 3 (4, 5))
    as (Hpending & _).
  split; [apply Hiff; reflexivity |].
  split; [reflexivity |]. apply Hpending. reflexivity.
Defined.

(** C8 as first stated fails: after the timer has fired and its handler has
    expired the only entry, TIMER_ARMED is still set and the timer holds
    no live expiration. *)
Lemma timer_armed_counterexample :
  let m := run quiet (map step_of_event sample_expiry) (boot sample_queue) in
  test_bits XIO_WORKQUEUE_TIMER_ARMED (flags (work_queue m)) = true /\
  timer_is_set (timer m) = false.
Proof. cbv zeta. split; reflexivity. Qed.

Lemma timer_armed_invariant_witness :
  let m := run quiet (map step_of_event sample_expiry) (boot sample_queue) in
  let m1 := run quiet (map step_of_event sample_submit) (boot sample_queue) in
  (test_bits XIO_WORKQUEUE_TIMER_ARMED (flags (work_queue m)) = true <->
   timespec_is_zero (it_value (tfd_setting (timer m))) = false) /\
  timer_is_set (timer m1) = true /\
  test_bits XIO_WORKQUEUE_TIMER_ARMED (flags (work_queue m1)) = true.
Proof.
  intros m m1.
  destruct (timer_armed_invariant quiet (map step_of_event sample_expiry)
              1 3 (4, 5)) as (Hiff & _);
    [intros f d; reflexivity | reflexivity |].
  destruct (timer_armed_invariant quiet (map step_of_event sample_submit)
              1 3 (4, 5)) as (_ & Hset);
    [intros f d; reflexivity | reflexivity |].
  split; [exact Hiff |]. split; [reflexivity |]. apply Hset. reflexivity.
Defined.

(** * The further properties at sample states *)

Lemma rearm_programs_valid_setting_witness :
  timer sample_unarmed = mk_timerfd zero_itimerspec false 0 /\
  tv_sec
    (it_value (tfd_setting (timer (snd (xio_workqueue_rearm 0 sample_unarmed)))))
    <= 9223372036 /\
  timespec_is_zero
    (it_value (tfd_setting (timer (snd (xio_workqueue_rearm 0 sample_unarmed)))))
    = false.
Proof.
  split; [reflexivity |].
  pose proof (rearm_programs_valid_setting 0 sample_unarmed) as V.
  cbv zeta in V.
  destruct V as [Hsame | (_ & _ & _ & Hpos & Hbound)].
  - vm_compute in Hsame. discriminate Hsame.
  - split; [| exact Hpos]. apply Hbound. vm_compute. reflexivity.
Defined.

Lemma create_returns_queue_iff_all_succeed_witness :
  fst (xio_workqueue_create (R := deadline_list) sample_env_ok 1 sample_os)
    = Some sample_queue /\
  open_fds
    (snd (xio_workqueue_create (R := deadline_list) sample_env_ok 1 sample_os))
    = 4 :: 5 :: 3 :: 0 :: 1 :: 2 :: nil /\
  create_succeeds sample_env = false.
Proof.
  destruct (create_returns_queue_iff_all_succeed
              (R := deadline_list) sample_env_ok 1 sample_os)
    as (_ & Hall).
  destruct Hall as (Hq & _ & Hopen & _); [reflexivity |].
  destruct (create_returns_queue_iff_all_succeed
              (R := deadline_list) sample_env 1 sample_os)
    as (Hiff & _).
  split; [exact Hq |]. split; [exact Hopen |].
  destruct (create_succeeds sample_env) eqn:E; [| reflexivity].
  exfalso. apply (proj2 Hiff); reflexivity.
Defined.

Lemma destroy_undoes_create_witness :
  let os1 :=
    snd (xio_workqueue_create (R := deadline_list) sample_env_ok 1 sample_os)
  in
  let r := xio_workqueue_destroy 0 0 0 4096 sample_armed os1 in
  fst (fst r) = 0 /\ holds_nothing_beyond sample_os (snd r).
Proof.
  apply (destroy_undoes_create sample_env_ok 1 0 sample_armed sample_os);
    reflexivity.
Defined.

Lemma destroy_cleans_up_and_returns_last_status_witness :
  let os1 :=
    snd (xio_workqueue_create (R := deadline_list) sample_env_ok 1 sample_os)
  in
  let r := xio_workqueue_destroy 0 (-1) 0 4096 (boot sample_queue) os1 in
  fst (fst r) = 0 /\ ev_handlers (snd r) = 3 :: nil /\
  open_fds (snd r) = 0 :: 1 :: 2 :: nil.
Proof.
  intros os1 r.
  destruct (destroy_cleans_up_and_returns_last_status
              0 (-1) 0 4096 (boot sample_queue) os1)
    as (_ & _ & Hopen & Hlast).
  destruct Hlast as (Hret & Hev & _); [discriminate | reflexivity |].
  split; [exact Hret |]. split; [exact Hev | exact Hopen].
Defined.

Lemma delayed_action_handler_spurious_wakeup_witness :
  @xio_delayed_action_handler _ _ (scripted quiet) 0 sample_armed
  = sample_armed.
Proof.
  apply (@delayed_action_handler_spurious_wakeup
           deadline_list _ (scripted quiet) 0 sample_armed).
  vm_compute. discriminate.
Defined.

Lemma delayed_action_handler_rearms_for_next_witness :
  let m' := @xio_delayed_action_handler _ _ (scripted quiet) 0
              sample_two_fired in
  registered m' 1000 = false /\ registered m' 2000 = true /\
  timer m' =
    mk_timerfd (mk_itimerspec zero_timespec (mk_timespec 2 490000000))
               false 0 /\
  test_bits XIO_WORKQUEUE_IN_POLL (flags (work_queue m')) = false.
Proof.
  intros m'.
  destruct (@delayed_action_handler_rearms_for_next
              deadline_list _ (scripted quiet) 0 sample_two_fired)
    as (Hout & Hnext); [vm_compute; reflexivity |].
  destruct Hnext as (Htimer & _); [lia | vm_compute; reflexivity | vm_compute; discriminate |].
  split; [vm_compute; reflexivity |]. split; [vm_compute; reflexivity |].
  split; [exact Htimer | exact Hout].
Defined.

Lemma add_delayed_work_arms_for_next_witness :
  fst (xio_workqueue_add_delayed_work 0 2500 8 7 1000 (boot sample_queue)) = 0
  /\ timer sample_armed =
     mk_timerfd (mk_itimerspec zero_timespec (mk_timespec 2 500000000))
                false 0.
Proof.
  destruct (add_delayed_work_arms_for_next 0 2500 8 7 1000 (boot sample_queue))
    as (Hret & Htimer & _);
    [reflexivity | discriminate | reflexivity | discriminate | lia |].
  split; [exact Hret | exact Htimer].
Defined.

Lemma add_delayed_work_rearm_failure_keeps_entry_witness :
  let r := xio_workqueue_add_delayed_work (-1) 2500 8 7 1000
             (boot sample_queue) in
  fst r = -1 /\ registered (snd r) 1000 = true /\
  work_pending (snd r) 1000 = true /\ timer_is_set (timer (snd r)) = false.
Proof.
  intros r.
  destruct (add_delayed_work_rearm_failure_keeps_entry
              (-1) 2500 8 7 1000 (boot sample_queue))
    as (Hret & _ & Hpend & _);
    [reflexivity | discriminate | reflexivity | discriminate | lia |].
  split; [exact Hret |]. split; [reflexivity |].
  split; [exact Hpend | reflexivity].
Defined.

Lemma add_delayed_work_in_pass_leaves_timer_witness :
  let r := xio_workqueue_add_delayed_work 0 2500 8 7 1000 sample_in_pass in
  fst r = 0 /\ registered (snd r) 1000 = true /\
  timer (snd r) = timer sample_in_pass.
Proof.
  intros r.
  destruct (add_delayed_work_in_pass_leaves_timer
              0 2500 8 7 1000 sample_in_pass)
    as (Hret & _ & _ & Htimer & _); [reflexivity | discriminate |].
  split; [exact Hret |]. split; [reflexivity | exact Htimer].
Defined.

Lemma del_delayed_work_reprograms_or_disarms_witness :
  let gone := xio_workqueue_del_delayed_work 0 0 1000 sample_armed in
  let left := xio_workqueue_del_delayed_work 0 0 1000 sample_two_fired in
  fst gone = 0 /\ timer_is_set (timer (snd gone)) = false /\
  test_bits XIO_WORKQUEUE_TIMER_ARMED (flags (work_queue (snd gone))) = false
  /\
  fst left = 0 /\
  timer (snd left) =
    mk_timerfd (mk_itimerspec zero_timespec (mk_timespec 2 490000000))
               false 0.
Proof.
  intros gone left.
  destruct (del_delayed_work_reprograms_or_disarms 0 0 1000 sample_armed)
    as (Hret & _ & _ & _ & Hnone); [reflexivity | discriminate | lia | lia |].
  destruct Hnone as (Hflag & Htimer); [left; reflexivity |].
  destruct (del_delayed_work_reprograms_or_disarms 0 0 1000 sample_two_fired)
    as (Hret' & _ & _ & Hnext & _);
    [vm_compute; reflexivity | vm_compute; discriminate | lia | lia |].
  destruct Hnext as (Htimer' & _);
    [vm_compute; reflexivity | vm_compute; discriminate |].
  split; [exact Hret |].
  split; [subst gone; rewrite Htimer; reflexivity |].
  split; [exact Hflag |]. split; [exact Hret' | exact Htimer'].
Defined.

Lemma del_delayed_work_error_leaves_timer_disarmed_witness :
  let r := xio_workqueue_del_delayed_work 0 0 2000 sample_armed in
  registered sample_armed 1000 = true /\
  timer_is_set (timer sample_armed) = true /\
  registered (snd r) 1000 = true /\ timer_is_set (timer (snd r)) = false.
Proof.
  intros r.
  destruct (del_delayed_work_error_leaves_timer_disarmed
              0 0 2000 sample_armed)
    as (_ & Hunset & _ & _); [reflexivity | reflexivity | lia |].
  split; [reflexivity |]. split; [reflexivity |].
  split; [reflexivity | exact Hunset].
Defined.

Lemma add_work_then_handler_runs_callback_witness :
  @xio_work_action_handler _ (scripted quiet) 2 sample_queued =
  Some (store_work 1000 (mk_work 7 8 0) (boot sample_queue)).
Proof.
  destruct (@add_work_then_handler_runs_callback
              deadline_list (scripted quiet) 8 7 1000 (boot sample_queue))
    as (_ & Hrun); [reflexivity | lia | intros f d m0; reflexivity |].
  exact Hrun.
Defined.

Lemma add_work_del_work_then_handler_skips_witness :
  @xio_work_action_handler _ (scripted quiet) 2
    (snd (xio_workqueue_del_work 1000 sample_queued)) =
  Some (store_work 1000 (mk_work 7 8 0) (boot sample_queue)).
Proof.
  destruct (@add_work_del_work_then_handler_skips
              deadline_list (scripted quiet) 8 7 1000 (boot sample_queue))
    as (_ & Hrun); [reflexivity | lia |].
  exact Hrun.
Defined.

Lemma add_work_twice_dispatches_once_witness :
  exists m',
    @xio_work_action_handler _ (scripted quiet) 3
      (snd (xio_workqueue_add_work 8 9 6 1000 sample_queued)) = Some m' /\
    pipe m' = nil /\ work_pending m' 1000 = false /\
    function (load_work (mem m') 1000) = 6.
Proof.
  destruct (@add_work_twice_dispatches_once
              deadline_list (scripted quiet) 8 7 9 6 1000 (boot sample_queue))
    as (_ & Hrun);
    [reflexivity | lia | intros f d m0; split; reflexivity |].
  eexists. split; [exact Hrun |]. repeat split.
Defined.

Lemma work_action_handler_short_read_witness :
  @xio_work_action_handler _ (scripted quiet) 1 sample_stray =
  Some (ERROR_LOG "failed to read from pipe" (boot sample_queue)).
Proof.
  apply (@work_action_handler_short_read
           deadline_list (scripted quiet) 0 sample_stray).
  - discriminate.
  - cbn. lia.
Defined.

Lemma create_rolls_back_early_failures_witness :
  let r := xio_workqueue_create (R := deadline_list) sample_env_no_timer 1
             sample_os in
  fst r = None /\ holds_nothing_beyond sample_os (snd r).
Proof.
  apply (create_rolls_back_early_failures
           (R := deadline_list) sample_env_no_timer 1 sample_os).
  right. left. cbn. lia.
Defined.

Lemma add_delayed_work_insert_failure_witness :
  let r := xio_workqueue_add_delayed_work 0 10 8 7 1000 sample_refusing in
  fst r = -1 /\ work_pending (snd r) 1000 = true /\
  registered (snd r) 1000 = false /\ timer (snd r) = timer sample_refusing.
Proof.
  intros r.
  destruct (add_delayed_work_insert_failure 0 10 8 7 1000 sample_refusing)
    as (Hret & _ & Htimer & _ & Hpend & _); [reflexivity |].
  split; [exact Hret |]. split; [exact Hpend |].
  split; [reflexivity | exact Htimer].
Defined.
